(** * CMSIS-RTOS2 RTX: counting semaphore and thread delay

    A shallow embedding of [rtx_semaphore.c] and [rtx_delay.c]
    (CMSIS/RTOS2/RTX/Source).  Control blocks live in a finite map from
    addresses to objects; every C function becomes a computation over the
    kernel state that may fail when it dereferences an address holding no
    object.  Calls to the scheduler, the allocator and the event recorder are
    written to a trace, each with the object memory seen at the call. *)

From Stdlib Require Import ZArith List Bool Lia.
From stdpp Require Import base option list gmap.

Local Open Scope Z_scope.

(** ** Constants of the headers

    [rtx_lib.h], [rtx_os.h], [rtx_core_cm.h] and [cmsis_os2.h] are not among
    the two source files, so the macros they define are collected in a class.
    The laws are the only facts about the values the development relies on. *)

(** Modelled from the spec: the header macros used by the two source files
    (object identifier, object states, the system-object flag, the token
    limit, the size of a control block, the build switch between exclusive
    access and interrupt masking).  The spec fixes [state] to
    {Active, Inactive}, [max_tokens] to [1 .. TokenLimit] and gives 65535 as
    the limit of the 16-bit token field. *)
Class rtx_lib_h := {
  EXCLUSIVE_ACCESS : Z;
  osRtxIdSemaphore : Z;
  osRtxObjectInactive : Z;
  osRtxObjectActive : Z;
  osRtxFlagSystemObject : Z;
  osRtxSemaphoreTokenLimit : Z;
  sizeof_os_semaphore_t : Z;
  object_states_differ : osRtxObjectActive <> osRtxObjectInactive;
  token_limit_16bit : 0 < osRtxSemaphoreTokenLimit <= 65535
}.

(** [osStatus_t] of cmsis_os2.h, as far as the two files use it. *)
Inductive osStatus_t :=
| osOK
| osErrorTimeout
| osErrorResource
| osErrorParameter
| osErrorNoMemory
| osErrorISR.

(** Error codes handed to the event recorder: a status, or one of the two
    RTX-specific codes the semaphore functions report. *)
Inductive evr_code :=
| evr_status (s : osStatus_t)
| osRtxErrorInvalidControlBlock
| osRtxErrorSemaphoreCountLimit.

(** Reason a thread waits ([osRtxThreadWaitingDelay],
    [osRtxThreadWaitingSemaphore]). *)
Inductive wait_state :=
| osRtxThreadWaitingDelay
| osRtxThreadWaitingSemaphore.

Definition NULL : Z := 0.

(** ** Data model *)

(** A thread as the wait list sees it: its identity and its priority. *)
Record os_thread_t := mk_thread {
  thread_id : Z;
  priority : Z
}.

(** [os_semaphore_t].  The intrusive list hanging off [thread_list] is kept
    as the list of its threads, head first; [nil] is the NULL pointer.
    [obj_id] is the C field [id]. *)
Record os_semaphore_t := mk_semaphore {
  obj_id : Z;
  state : Z;
  flags : Z;
  name : Z;
  thread_list : list os_thread_t;
  tokens : Z;
  max_tokens : Z
}.

(** [osSemaphoreAttr_t]. *)
Record osSemaphoreAttr_t := mk_attr {
  attr_name : Z;
  attr_bits : Z;
  cb_mem : Z;
  cb_size : Z
}.

Definition set_state (v : Z) (s : os_semaphore_t) : os_semaphore_t :=
  mk_semaphore (obj_id s) v (flags s) (name s) (thread_list s) (tokens s) (max_tokens s).

Definition set_thread_list (v : list os_thread_t) (s : os_semaphore_t) : os_semaphore_t :=
  mk_semaphore (obj_id s) (state s) (flags s) (name s) v (tokens s) (max_tokens s).

Definition set_tokens (v : Z) (s : os_semaphore_t) : os_semaphore_t :=
  mk_semaphore (obj_id s) (state s) (flags s) (name s) (thread_list s) v (max_tokens s).

(** Calls that leave the two files: event recorder, scheduler, allocator. *)
Inductive event :=
| EvrRtxSemaphoreError (semaphore : Z) (code : evr_code)
| EvrRtxSemaphoreNew (max_count initial_count : Z) (attr : option osSemaphoreAttr_t)
| EvrRtxSemaphoreCreated (semaphore : Z) (nm : Z)
| EvrRtxSemaphoreAcquire (semaphore : Z) (timeout : Z)
| EvrRtxSemaphoreAcquired (semaphore : Z)
| EvrRtxSemaphoreAcquirePending (semaphore : Z) (timeout : Z)
| EvrRtxSemaphoreAcquireTimeout (semaphore : Z)
| EvrRtxSemaphoreNotAcquired (semaphore : Z)
| EvrRtxSemaphoreRelease (semaphore : Z)
| EvrRtxSemaphoreReleased (semaphore : Z)
| EvrRtxSemaphoreGetCount (semaphore : Z) (count : Z)
| EvrRtxSemaphoreDelete (semaphore : Z)
| EvrRtxSemaphoreDestroyed (semaphore : Z)
| EvrRtxThreadDelay (ticks : Z)
| EvrRtxThreadDelayUntil (ticks : Z)
| EvrRtxThreadDelayCompleted
| EvrRtxThreadError (thread : Z) (code : evr_code)
| ThreadWaitEnter (thread : os_thread_t) (why : wait_state) (timeout : Z)
| ThreadWaitExit (thread : os_thread_t) (ret_val : osStatus_t) (dispatch : bool)
| ThreadDispatch
| PostProcess (object : Z)
| MemoryPoolFree (block : Z)
| MemoryFree (block : Z).

(** The kernel state the two files read and write: object memory, the two
    CPU registers that decide the execution context, [osRtxInfo] as far as it
    is used, the scheduler's answer to a suspension request, and the trace. *)
Record kernel := mk_kernel {
  mem : gmap Z os_semaphore_t;
  IPSR : Z;
  PRIMASK : bool;
  kernel_tick : Z;
  thread_run_curr : os_thread_t;
  suspendable : bool;
  mpi_semaphore : option (list Z);
  mem_common : list Z;
  post_process_semaphore : bool;
  trace : list (event * gmap Z os_semaphore_t)
}.

Definition set_mem (v : gmap Z os_semaphore_t) (k : kernel) : kernel :=
  mk_kernel v (IPSR k) (PRIMASK k) (kernel_tick k) (thread_run_curr k)
    (suspendable k) (mpi_semaphore k) (mem_common k) (post_process_semaphore k) (trace k).

Definition set_PRIMASK (v : bool) (k : kernel) : kernel :=
  mk_kernel (mem k) (IPSR k) v (kernel_tick k) (thread_run_curr k)
    (suspendable k) (mpi_semaphore k) (mem_common k) (post_process_semaphore k) (trace k).

Definition set_mpi_semaphore (v : option (list Z)) (k : kernel) : kernel :=
  mk_kernel (mem k) (IPSR k) (PRIMASK k) (kernel_tick k) (thread_run_curr k)
    (suspendable k) v (mem_common k) (post_process_semaphore k) (trace k).

Definition set_mem_common (v : list Z) (k : kernel) : kernel :=
  mk_kernel (mem k) (IPSR k) (PRIMASK k) (kernel_tick k) (thread_run_curr k)
    (suspendable k) (mpi_semaphore k) v (post_process_semaphore k) (trace k).

Definition set_post_process_semaphore (v : bool) (k : kernel) : kernel :=
  mk_kernel (mem k) (IPSR k) (PRIMASK k) (kernel_tick k) (thread_run_curr k)
    (suspendable k) (mpi_semaphore k) (mem_common k) v (trace k).

Definition set_trace (v : list (event * gmap Z os_semaphore_t)) (k : kernel) : kernel :=
  mk_kernel (mem k) (IPSR k) (PRIMASK k) (kernel_tick k) (thread_run_curr k)
    (suspendable k) (mpi_semaphore k) (mem_common k) (post_process_semaphore k) v.

(** ** The kernel monad

    A computation reads and writes the kernel state; [None] is a dereference
    of an address that holds no object. *)
Definition M (A : Type) : Type := kernel -> option (A * kernel).

Definition ret {A} (a : A) : M A := fun k => Some (a, k).

Definition bind {A B} (m : M A) (f : A -> M B) : M B :=
  fun k => match m k with
           | Some (a, k') => f a k'
           | None => None
           end.

Definition undefined {A} : M A := fun _ => None.

Declare Scope kernel_scope.
Delimit Scope kernel_scope with K.
Notation "'let!' x ':=' m 'in' f" := (bind m (fun x => f))
  (at level 10, x name, m at level 100, f at level 200) : kernel_scope.
Notation "m '>>' f" := (bind m (fun _ => f))
  (at level 100, f at level 200, right associativity) : kernel_scope.
Local Open Scope kernel_scope.

Definition get : M kernel := fun k => Some (k, k).
Definition modify (f : kernel -> kernel) : M unit := fun k => Some (tt, f k).

(** [*p] for a control block pointer. *)
Definition load (p : Z) : M os_semaphore_t :=
  fun k => match mem k !! p with
           | Some s => Some (s, k)
           | None => None
           end.

(** The kernel with the block at [p] holding [s]. *)
Definition put (p : Z) (s : os_semaphore_t) (k : kernel) : kernel :=
  set_mem (<[p := s]> (mem k)) k.

(** The kernel with one more call in the trace, recorded with the object
    memory at that moment. *)
Definition log (e : event) (k : kernel) : kernel :=
  set_trace (trace k ++ [(e, mem k)]) k.

(** Assignment to fields of [*p], the block being mapped. *)
Definition update (p : Z) (f : os_semaphore_t -> os_semaphore_t) : M unit :=
  let! s := load p in modify (put p (f s)).

(** Whole-block initialisation of [*p]; the block need not hold an object
    before. *)
Definition store (p : Z) (s : os_semaphore_t) : M unit := modify (put p s).

Definition emit (e : event) : M unit := modify (log e).

(** ** Collaborators outside the two files *)

Section rtx.
Context `{rtx_lib_h}.

(** Modelled from the spec: [__get_PRIMASK] of the CMSIS core headers.
    PRIMASK is the one-bit interrupt mask of the CPU. *)
Definition __get_PRIMASK : M Z := let! k := get in ret (if PRIMASK k then 1 else 0).

(** Modelled from the spec: [__disable_irq], which masks interrupts. *)
Definition __disable_irq : M unit := modify (set_PRIMASK true).

(** Modelled from the spec: [__enable_irq], which unmasks interrupts. *)
Definition __enable_irq : M unit := modify (set_PRIMASK false).

(** Modelled from the spec: [IsIrqMode] of rtx_core_cm.h.  The handler
    number IPSR is non-zero exactly inside an interrupt handler. *)
Definition IsIrqMode : M bool := let! k := get in ret (negb (IPSR k =? 0)).

(** Modelled from the spec: [IsIrqMasked] of rtx_core_cm.h, interrupts
    globally masked. *)
Definition IsIrqMasked : M bool := let! r := __get_PRIMASK in ret (negb (r =? 0)).

(** Modelled from the spec: the exclusive-instruction strategy of the token
    counter ([atomic_dec16_nz] of rtx_core_cm.h), decrement-if-nonzero as one
    atomic step; the value before the step is returned. *)
Definition atomic_dec16_nz (semaphore : Z) : M Z :=
  let! s := load semaphore in
  if negb (tokens s =? 0)
  then update semaphore (set_tokens ((tokens s - 1) mod 65536)) >> ret (tokens s)
  else ret (tokens s).

(** Modelled from the spec: [atomic_inc16_lt] of rtx_core_cm.h,
    increment-if-less-than-capacity as one atomic step; the value before the
    step is returned. *)
Definition atomic_inc16_lt (semaphore : Z) (max : Z) : M Z :=
  let! s := load semaphore in
  if tokens s <? max
  then update semaphore (set_tokens ((tokens s + 1) mod 65536)) >> ret (tokens s)
  else ret (tokens s).

(** Modelled from the spec: the scheduler's [enqueue(wait_list, thread)] on
    the list itself.  The wait list is ordered by priority, then arrival: a
    thread goes to the tail of its priority band. *)
Fixpoint thread_list_put (thread : os_thread_t) (l : list os_thread_t) : list os_thread_t :=
  match l with
  | [] => [thread]
  | next :: rest =>
      if priority next >=? priority thread
      then next :: thread_list_put thread rest
      else thread :: l
  end.

(** Modelled from the spec: [osRtxThreadListPut] of rtx_thread.c, the
    scheduler's [enqueue(wait_list, thread)] on an object. *)
Definition osRtxThreadListPut (object : Z) (thread : os_thread_t) : M unit :=
  update object (fun s => set_thread_list (thread_list_put thread (thread_list s)) s).

(** Modelled from the spec: [osRtxThreadListGet] of rtx_thread.c, the
    scheduler's [dequeue_highest(wait_list) -> thread]: the head of the list
    is unlinked and returned, NULL ([None]) when the list is empty. *)
Definition osRtxThreadListGet (object : Z) : M (option os_thread_t) :=
  let! s := load object in
  match thread_list s with
  | [] => ret None
  | thread :: rest => update object (set_thread_list rest) >> ret (Some thread)
  end.

(** Modelled from the spec: [osRtxThreadGetRunning] of rtx_thread.c. *)
Definition osRtxThreadGetRunning : M os_thread_t :=
  let! k := get in ret (thread_run_curr k).

(** Modelled from the spec: [osRtxThreadWaitEnter] of rtx_thread.c, the
    scheduler's [suspend(reason, timeout) -> outcome].  Whether the running
    thread can be suspended is the scheduler's decision; a suspension is
    visible as a call in the trace. *)
Definition osRtxThreadWaitEnter (why : wait_state) (timeout : Z) : M bool :=
  let! k := get in
  if suspendable k
  then emit (ThreadWaitEnter (thread_run_curr k) why timeout) >> ret true
  else ret false.

(** Modelled from the spec: [osRtxThreadWaitExit] of rtx_thread.c, the
    scheduler's [wake(thread, result, dispatch_now)].  A NULL thread is
    dereferenced by the scheduler. *)
Definition osRtxThreadWaitExit (thread : option os_thread_t) (ret_val : osStatus_t)
    (dispatch : bool) : M unit :=
  match thread with
  | Some t => emit (ThreadWaitExit t ret_val dispatch)
  | None => undefined
  end.

(** Modelled from the spec: [osRtxThreadDispatch(NULL)] of rtx_thread.c. *)
Definition osRtxThreadDispatch : M unit := emit ThreadDispatch.

(** Modelled from the spec: [osRtxPostProcess] of rtx_system.c, which
    registers an object for deferred post-processing. *)
Definition osRtxPostProcess (object : Z) : M unit := emit (PostProcess object).

(** Modelled from the spec: the object allocator's pool-typed
    [alloc -> block] on [osRtxInfo.mpi.semaphore]; NULL when no block is
    left. *)
Definition osRtxMemoryPoolAlloc : M Z :=
  let! k := get in
  match mpi_semaphore k with
  | Some (block :: rest) => modify (set_mpi_semaphore (Some rest)) >> ret block
  | _ => ret NULL
  end.

(** Modelled from the spec: the object allocator's [alloc(size) -> block] on
    [osRtxInfo.mem.common]; NULL when no block is left. *)
Definition osRtxMemoryAlloc (size : Z) : M Z :=
  let! k := get in
  match mem_common k with
  | block :: rest => modify (set_mem_common rest) >> ret block
  | [] => ret NULL
  end.

(** Modelled from the spec: the object allocator's pool-typed [free(block)]. *)
Definition osRtxMemoryPoolFree (block : Z) : M unit :=
  emit (MemoryPoolFree block) >>
  modify (fun k => set_mpi_semaphore (option_map (cons block) (mpi_semaphore k)) k).

(** Modelled from the spec: the object allocator's [free(block)]. *)
Definition osRtxMemoryFree (block : Z) : M unit :=
  emit (MemoryFree block) >>
  modify (fun k => set_mem_common (block :: mem_common k) k).

(** ** rtx_semaphore.c: helper functions *)

Definition SemaphoreTokenDecrement (semaphore : Z) : M Z :=
  if EXCLUSIVE_ACCESS =? 0 then
    let! primask := __get_PRIMASK in
    __disable_irq >>
    let! s := load semaphore in
    let! r := (if negb (tokens s =? 0)
               then update semaphore (set_tokens ((tokens s - 1) mod 65536)) >> ret 1
               else ret 0) in
    (if primask =? 0 then __enable_irq else ret tt) >>
    ret r
  else
    let! old := atomic_dec16_nz semaphore in
    if negb (old =? 0) then ret 1 else ret 0.

Definition SemaphoreTokenIncrement (semaphore : Z) : M Z :=
  if EXCLUSIVE_ACCESS =? 0 then
    let! primask := __get_PRIMASK in
    __disable_irq >>
    let! s := load semaphore in
    let! r := (if tokens s <? max_tokens s
               then update semaphore (set_tokens ((tokens s + 1) mod 65536)) >> ret 1
               else ret 0) in
    (if primask =? 0 then __enable_irq else ret tt) >>
    ret r
  else
    let! s := load semaphore in
    let! old := atomic_inc16_lt semaphore (max_tokens s) in
    if old <? max_tokens s then ret 1 else ret 0.

(** [(semaphore == NULL) || (semaphore->id != osRtxIdSemaphore)], the left
    operand deciding first. *)
Definition not_a_semaphore (semaphore : Z) : M bool :=
  if semaphore =? NULL then ret true
  else let! s := load semaphore in ret (negb (obj_id s =? osRtxIdSemaphore)).

(** ** rtx_semaphore.c: library functions *)

Definition osRtxSemaphorePostProcess (semaphore : Z) : M unit :=
  let! s := load semaphore in
  if state s =? osRtxObjectInactive then ret tt
  else
    match thread_list s with
    | [] => ret tt
    | _ :: _ =>
        let! r := SemaphoreTokenDecrement semaphore in
        if negb (r =? 0) then
          let! thread := osRtxThreadListGet semaphore in
          osRtxThreadWaitExit thread osOK false >>
          emit (EvrRtxSemaphoreAcquired semaphore)
        else ret tt
    end.

(** ** rtx_semaphore.c: service calls *)

(** The attribute block of [svcRtxSemaphoreNew]: the name and the control
    block to use, or [None] where the function returns NULL after reporting
    an invalid control block. *)
Definition process_attributes (attr : option osSemaphoreAttr_t) : option (Z * Z) :=
  match attr with
  | Some a =>
      if negb (cb_mem a =? NULL) then
        if negb (Z.land (cb_mem a) 3 =? 0) || (cb_size a <? sizeof_os_semaphore_t)
        then None
        else Some (attr_name a, cb_mem a)
      else
        if negb (cb_size a =? 0) then None else Some (attr_name a, cb_mem a)
  | None => Some (NULL, NULL)
  end.

Definition svcRtxSemaphoreNew (max_count initial_count : Z)
    (attr : option osSemaphoreAttr_t) : M Z :=
  if (max_count =? 0) || (max_count >? osRtxSemaphoreTokenLimit) || (initial_count >? max_count)
  then
    emit (EvrRtxSemaphoreError NULL (evr_status osErrorParameter)) >> ret NULL
  else
    match process_attributes attr with
    | None =>
        emit (EvrRtxSemaphoreError NULL osRtxErrorInvalidControlBlock) >> ret NULL
    | Some (nm, cb) =>
        let! alloc :=
          (if cb =? NULL then
             let! k := get in
             let! block := (match mpi_semaphore k with
                            | Some _ => osRtxMemoryPoolAlloc
                            | None => osRtxMemoryAlloc sizeof_os_semaphore_t
                            end) in
             ret (block, osRtxFlagSystemObject)
           else ret (cb, 0)) in
        let semaphore := fst alloc in
        (if negb (semaphore =? NULL) then
           store semaphore
             (mk_semaphore osRtxIdSemaphore osRtxObjectActive (snd alloc) nm []
                (initial_count mod 65536) (max_count mod 65536)) >>
           modify (set_post_process_semaphore true) >>
           emit (EvrRtxSemaphoreCreated semaphore nm)
         else
           emit (EvrRtxSemaphoreError NULL (evr_status osErrorNoMemory))) >>
        ret semaphore
    end.

Definition svcRtxSemaphoreAcquire (semaphore_id timeout : Z) : M osStatus_t :=
  let semaphore := semaphore_id in
  let! bad := not_a_semaphore semaphore in
  if bad then
    emit (EvrRtxSemaphoreError semaphore (evr_status osErrorParameter)) >> ret osErrorParameter
  else
    let! s := load semaphore in
    if state s =? osRtxObjectInactive then
      emit (EvrRtxSemaphoreError semaphore (evr_status osErrorResource)) >> ret osErrorResource
    else
      let! r := SemaphoreTokenDecrement semaphore in
      if negb (r =? 0) then
        emit (EvrRtxSemaphoreAcquired semaphore) >> ret osOK
      else if negb (timeout =? 0) then
        emit (EvrRtxSemaphoreAcquirePending semaphore timeout) >>
        let! entered := osRtxThreadWaitEnter osRtxThreadWaitingSemaphore timeout in
        (if entered then
           let! running := osRtxThreadGetRunning in
           osRtxThreadListPut semaphore running
         else emit (EvrRtxSemaphoreAcquireTimeout semaphore)) >>
        ret osErrorTimeout
      else
        emit (EvrRtxSemaphoreNotAcquired semaphore) >> ret osErrorResource.

Definition svcRtxSemaphoreRelease (semaphore_id : Z) : M osStatus_t :=
  let semaphore := semaphore_id in
  let! bad := not_a_semaphore semaphore in
  if bad then
    emit (EvrRtxSemaphoreError semaphore (evr_status osErrorParameter)) >> ret osErrorParameter
  else
    let! s := load semaphore in
    if state s =? osRtxObjectInactive then
      emit (EvrRtxSemaphoreError semaphore (evr_status osErrorResource)) >> ret osErrorResource
    else
      match thread_list s with
      | _ :: _ =>
          emit (EvrRtxSemaphoreReleased semaphore) >>
          let! thread := osRtxThreadListGet semaphore in
          osRtxThreadWaitExit thread osOK true >>
          emit (EvrRtxSemaphoreAcquired semaphore) >>
          ret osOK
      | [] =>
          let! r := SemaphoreTokenIncrement semaphore in
          if negb (r =? 0) then
            emit (EvrRtxSemaphoreReleased semaphore) >> ret osOK
          else
            emit (EvrRtxSemaphoreError semaphore osRtxErrorSemaphoreCountLimit) >>
            ret osErrorResource
      end.

Definition svcRtxSemaphoreGetCount (semaphore_id : Z) : M Z :=
  let semaphore := semaphore_id in
  let! bad := not_a_semaphore semaphore in
  if bad then
    emit (EvrRtxSemaphoreGetCount semaphore 0) >> ret 0
  else
    let! s := load semaphore in
    if state s =? osRtxObjectInactive then
      emit (EvrRtxSemaphoreGetCount semaphore 0) >> ret 0
    else
      emit (EvrRtxSemaphoreGetCount semaphore (tokens s)) >> ret (tokens s).

(** The do-while loop of [svcRtxSemaphoreDelete]; each iteration unlinks one
    thread, so the number of waiting threads is fuel enough. *)
Fixpoint unblock_waiting_threads (fuel : nat) (semaphore : Z) : M unit :=
  match fuel with
  | O => undefined
  | S fuel' =>
      let! thread := osRtxThreadListGet semaphore in
      osRtxThreadWaitExit thread osErrorResource false >>
      let! s := load semaphore in
      match thread_list s with
      | _ :: _ => unblock_waiting_threads fuel' semaphore
      | [] => ret tt
      end
  end.

Definition svcRtxSemaphoreDelete (semaphore_id : Z) : M osStatus_t :=
  let semaphore := semaphore_id in
  let! bad := not_a_semaphore semaphore in
  if bad then
    emit (EvrRtxSemaphoreError semaphore (evr_status osErrorParameter)) >> ret osErrorParameter
  else
    let! s := load semaphore in
    if state s =? osRtxObjectInactive then
      emit (EvrRtxSemaphoreError semaphore (evr_status osErrorResource)) >> ret osErrorResource
    else
      update semaphore (set_state osRtxObjectInactive) >>
      (match thread_list s with
       | _ :: _ =>
           unblock_waiting_threads (length (thread_list s)) semaphore >>
           osRtxThreadDispatch
       | [] => ret tt
       end) >>
      (if negb (Z.land (flags s) osRtxFlagSystemObject =? 0) then
         let! k := get in
         match mpi_semaphore k with
         | Some _ => osRtxMemoryPoolFree semaphore
         | None => osRtxMemoryFree semaphore
         end
       else ret tt) >>
      emit (EvrRtxSemaphoreDestroyed semaphore) >>
      ret osOK.

(** The SVC transport: the service call runs as it is. *)
Definition __svcSemaphoreNew := svcRtxSemaphoreNew.
Definition __svcSemaphoreAcquire := svcRtxSemaphoreAcquire.
Definition __svcSemaphoreRelease := svcRtxSemaphoreRelease.
Definition __svcSemaphoreGetCount := svcRtxSemaphoreGetCount.
Definition __svcSemaphoreDelete := svcRtxSemaphoreDelete.

(** ** rtx_semaphore.c: ISR calls *)

(** [(semaphore == NULL) || (semaphore->id != osRtxIdSemaphore) ||
    (timeout != 0U)], left to right. *)
Definition isrRtxSemaphoreAcquire (semaphore_id timeout : Z) : M osStatus_t :=
  let semaphore := semaphore_id in
  let! bad := not_a_semaphore semaphore in
  if bad || negb (timeout =? 0) then
    emit (EvrRtxSemaphoreError semaphore (evr_status osErrorParameter)) >> ret osErrorParameter
  else
    let! s := load semaphore in
    if state s =? osRtxObjectInactive then
      emit (EvrRtxSemaphoreError semaphore (evr_status osErrorResource)) >> ret osErrorResource
    else
      let! r := SemaphoreTokenDecrement semaphore in
      if negb (r =? 0) then
        emit (EvrRtxSemaphoreAcquired semaphore) >> ret osOK
      else
        emit (EvrRtxSemaphoreNotAcquired semaphore) >> ret osErrorResource.

Definition isrRtxSemaphoreRelease (semaphore_id : Z) : M osStatus_t :=
  let semaphore := semaphore_id in
  let! bad := not_a_semaphore semaphore in
  if bad then
    emit (EvrRtxSemaphoreError semaphore (evr_status osErrorParameter)) >> ret osErrorParameter
  else
    let! s := load semaphore in
    if state s =? osRtxObjectInactive then
      emit (EvrRtxSemaphoreError semaphore (evr_status osErrorResource)) >> ret osErrorResource
    else
      let! r := SemaphoreTokenIncrement semaphore in
      if negb (r =? 0) then
        osRtxPostProcess semaphore >>
        emit (EvrRtxSemaphoreReleased semaphore) >>
        ret osOK
      else
        emit (EvrRtxSemaphoreError semaphore osRtxErrorSemaphoreCountLimit) >>
        ret osErrorResource.

(** ** rtx_semaphore.c: public API *)

(** [IsIrqMode() || IsIrqMasked()]. *)
Definition in_irq : M bool :=
  let! mode := IsIrqMode in
  if mode then ret true else IsIrqMasked.

Definition osSemaphoreNew (max_count initial_count : Z)
    (attr : option osSemaphoreAttr_t) : M Z :=
  emit (EvrRtxSemaphoreNew max_count initial_count attr) >>
  let! irq := in_irq in
  if irq then
    emit (EvrRtxSemaphoreError NULL (evr_status osErrorISR)) >> ret NULL
  else __svcSemaphoreNew max_count initial_count attr.

Definition osSemaphoreAcquire (semaphore_id timeout : Z) : M osStatus_t :=
  emit (EvrRtxSemaphoreAcquire semaphore_id timeout) >>
  let! irq := in_irq in
  if irq then isrRtxSemaphoreAcquire semaphore_id timeout
  else __svcSemaphoreAcquire semaphore_id timeout.

Definition osSemaphoreRelease (semaphore_id : Z) : M osStatus_t :=
  emit (EvrRtxSemaphoreRelease semaphore_id) >>
  let! irq := in_irq in
  if irq then isrRtxSemaphoreRelease semaphore_id
  else __svcSemaphoreRelease semaphore_id.

Definition osSemaphoreGetCount (semaphore_id : Z) : M Z :=
  let! irq := in_irq in
  if irq then svcRtxSemaphoreGetCount semaphore_id
  else __svcSemaphoreGetCount semaphore_id.

Definition osSemaphoreDelete (semaphore_id : Z) : M osStatus_t :=
  emit (EvrRtxSemaphoreDelete semaphore_id) >>
  let! irq := in_irq in
  if irq then
    emit (EvrRtxSemaphoreError semaphore_id (evr_status osErrorISR)) >> ret osErrorISR
  else __svcSemaphoreDelete semaphore_id.

(** ** rtx_delay.c *)

Definition svcRtxDelay (ticks : Z) : M osStatus_t :=
  (if negb (ticks =? 0) then
     let! entered := osRtxThreadWaitEnter osRtxThreadWaitingDelay ticks in
     if negb entered then emit EvrRtxThreadDelayCompleted else ret tt
   else ret tt) >>
  ret osOK.

(** [ticks -= osRtxInfo.kernel.tick] on a [uint32_t]. *)
Definition svcRtxDelayUntil (ticks : Z) : M osStatus_t :=
  let! k := get in
  let ticks := (ticks - kernel_tick k) mod 4294967296 in
  if ticks =? 4294967295 then
    emit (EvrRtxThreadError NULL (evr_status osErrorParameter)) >> ret osErrorParameter
  else
    (if negb (ticks =? 0) then
       let! entered := osRtxThreadWaitEnter osRtxThreadWaitingDelay ticks in
       if negb entered then emit EvrRtxThreadDelayCompleted else ret tt
     else ret tt) >>
    ret osOK.

Definition __svcDelay := svcRtxDelay.
Definition __svcDelayUntil := svcRtxDelayUntil.

Definition osDelay (ticks : Z) : M osStatus_t :=
  emit (EvrRtxThreadDelay ticks) >>
  let! irq := in_irq in
  if irq then
    emit (EvrRtxThreadError NULL (evr_status osErrorISR)) >> ret osErrorISR
  else __svcDelay ticks.

Definition osDelayUntil (ticks : Z) : M osStatus_t :=
  emit (EvrRtxThreadDelayUntil ticks) >>
  let! irq := in_irq in
  if irq then
    emit (EvrRtxThreadError NULL (evr_status osErrorISR)) >> ret osErrorISR
  else __svcDelayUntil ticks.

(** ** Vocabulary of the properties *)

(** Range of a [uint16_t] field. *)
Definition uint16 (x : Z) : Prop := 0 <= x < 65536.

(** [h] is a valid handle of an Active semaphore whose control block is [s]. *)
Definition valid_active (h : Z) (s : os_semaphore_t) (k : kernel) : Prop :=
  h <> NULL /\ mem k !! h = Some s /\
  obj_id s = osRtxIdSemaphore /\ state s = osRtxObjectActive.

(** The invariant of the data model: waiting threads mean no tokens. *)
Definition waiters_imply_no_tokens (s : os_semaphore_t) : Prop :=
  thread_list s <> [] -> tokens s = 0.

(** The wait list after the threads of [arrivals] were enqueued one after the
    other, earliest first. *)
Definition wait_list_of (arrivals : list os_thread_t) : list os_thread_t :=
  fold_left (fun l thread => thread_list_put thread l) arrivals [].

(** The block the allocator hands out next, NULL when it has none. *)
Definition next_block (k : kernel) : Z :=
  match mpi_semaphore k with
  | Some (block :: _) => block
  | Some [] => NULL
  | None => match mem_common k with
            | block :: _ => block
            | [] => NULL
            end
  end.

(** The kernel after the allocator handed out [next_block]. *)
Definition take_block (k : kernel) : kernel :=
  match mpi_semaphore k with
  | Some (_ :: rest) => set_mpi_semaphore (Some rest) k
  | Some [] => k
  | None => match mem_common k with
            | _ :: rest => set_mem_common rest k
            | [] => k
            end
  end.

(** The control block [svcRtxSemaphoreNew] initialises for [attr]: the
    caller's, or the allocator's next one; NULL when there is none. *)
Definition storage (attr : option osSemaphoreAttr_t) (k : kernel) : Z :=
  match process_attributes attr with
  | Some (_, cb) => if cb =? NULL then next_block k else cb
  | None => NULL
  end.

(** The two checks every service call on a handle starts with, for a
    non-NULL handle whose block is [s]: a foreign object is a parameter
    error, an Inactive one a resource error, and [body] runs otherwise. *)
Definition guarded (h : Z) (s : os_semaphore_t) (k : kernel)
    (body : option (osStatus_t * kernel)) : option (osStatus_t * kernel) :=
  if negb (obj_id s =? osRtxIdSemaphore) then
    Some (osErrorParameter, log (EvrRtxSemaphoreError h (evr_status osErrorParameter)) k)
  else if state s =? osRtxObjectInactive then
    Some (osErrorResource, log (EvrRtxSemaphoreError h (evr_status osErrorResource)) k)
  else body.

(** The operations of the core on one semaphore, results dropped. *)
Inductive operation :=
| ThreadAcquire (timeout : Z)
| ThreadRelease
| IsrAcquire (timeout : Z)
| IsrRelease
| PostProcessing.

Definition perform (o : operation) (h : Z) : M unit :=
  match o with
  | ThreadAcquire timeout => svcRtxSemaphoreAcquire h timeout >> ret tt
  | ThreadRelease => svcRtxSemaphoreRelease h >> ret tt
  | IsrAcquire timeout => isrRtxSemaphoreAcquire h timeout >> ret tt
  | IsrRelease => isrRtxSemaphoreRelease h >> ret tt
  | PostProcessing => osRtxSemaphorePostProcess h
  end.

(** Kernel states reached from the creation of the semaphore [h] by
    operations of the core on it. *)
Inductive reachable (h : Z) : kernel -> Prop :=
| reachable_new k max_count initial_count attr k' :
    h <> NULL ->
    svcRtxSemaphoreNew max_count initial_count attr k = Some (h, k') ->
    reachable h k'
| reachable_step k o k' :
    reachable h k ->
    perform o h k = Some (tt, k') ->
    reachable h k'.

(** Non-blocking calls: Acquire with timeout 0 and Release, from thread or
    from interrupt context. *)
Definition nonblocking (o : operation) : bool :=
  match o with
  | ThreadAcquire timeout | IsrAcquire timeout => timeout =? 0
  | ThreadRelease | IsrRelease => true
  | PostProcessing => false
  end.

Fixpoint perform_all (os : list operation) (h : Z) : M unit :=
  match os with
  | [] => ret tt
  | o :: rest => perform o h >> perform_all rest h
  end.

(** [h] names an Active semaphore of capacity [capacity] whose tokens are
    within [0 .. capacity]. *)
Definition within_capacity (h : Z) (capacity : Z) (k : kernel) : Prop :=
  exists s, valid_active h s k /\ max_tokens s = capacity /\ 0 <= tokens s <= capacity.

(** The calls [svcRtxSemaphoreDelete] makes to wake the threads [l] of the
    object [s] at [h], each with the memory the scheduler sees: the thread is
    already unlinked. *)
Fixpoint wake_all (h : Z) (s : os_semaphore_t) (m : gmap Z os_semaphore_t)
    (l : list os_thread_t) : list (event * gmap Z os_semaphore_t) :=
  match l with
  | [] => []
  | thread :: rest =>
      (ThreadWaitExit thread osErrorResource false, <[h := set_thread_list rest s]> m)
      :: wake_all h s m rest
  end.

(** The kernel after the allocator took the block [h] back. *)
Definition free_block (h : Z) (k : kernel) : kernel :=
  match mpi_semaphore k with
  | Some blocks => set_mpi_semaphore (Some (h :: blocks)) (log (MemoryPoolFree h) k)
  | None => set_mem_common (h :: mem_common k) (log (MemoryFree h) k)
  end.

(** Whether [svcRtxSemaphoreDelete] returns the block of [s] to the
    allocator. *)
Definition system_object (s : os_semaphore_t) : bool :=
  negb (Z.land (flags s) osRtxFlagSystemObject =? 0).

(** The allocator call that takes the block [h] back. *)
Definition free_call (h : Z) (k : kernel) : event :=
  match mpi_semaphore k with
  | Some _ => MemoryPoolFree h
  | None => MemoryFree h
  end.

(** The threads woken in a trace, each with the result its call returns. *)
Definition wakeup (e : event * gmap Z os_semaphore_t) : option (os_thread_t * osStatus_t) :=
  match fst e with
  | ThreadWaitExit thread ret_val _ => Some (thread, ret_val)
  | _ => None
  end.

Definition wakeups (k : kernel) : list (os_thread_t * osStatus_t) :=
  omap wakeup (trace k).

(** The caller is in interrupt context or runs with interrupts masked. *)
Definition irq_context (k : kernel) : Prop := IPSR k <> 0 \/ PRIMASK k = true.

(** The caller is a thread and interrupts are not masked. *)
Definition thread_context (k : kernel) : Prop := IPSR k = 0 /\ PRIMASK k = false.

(** The suspension requests in a trace. *)
Definition is_suspension (e : event * gmap Z os_semaphore_t) : bool :=
  match fst e with
  | ThreadWaitEnter _ _ _ => true
  | _ => false
  end.

Definition suspensions (k : kernel) : list (event * gmap Z os_semaphore_t) :=
  filter (fun e => is_suspension e = true) (trace k).

(** The scenario of the spec on a fresh object of capacity one. *)
Definition scenario : M (Z * osStatus_t * osStatus_t * Z * osStatus_t * Z) :=
  let! h := osSemaphoreNew 1 0 None in
  let! r1 := osSemaphoreAcquire h 0 in
  let! r2 := osSemaphoreRelease h in
  let! c2 := osSemaphoreGetCount h in
  let! r3 := osSemaphoreAcquire h 0 in
  let! c3 := osSemaphoreGetCount h in
  ret (h, r1, r2, c2, r3, c3).

End rtx.

(** The values of the RTX5 headers, once for each strategy of the token
    counter. *)
Definition rtx5_headers (exclusive_access : Z) : rtx_lib_h :=
  Build_rtx_lib_h exclusive_access 5 0 1 1 65535 16
    (fun e : 1 = 0 => Z.neq_succ_diag_l 0 e)
    (conj (eq_refl : (0 ?= 65535) = Lt) (Z.le_refl 65535)).

Definition rtx5_masking : rtx_lib_h := rtx5_headers 0.
Definition rtx5_exclusive : rtx_lib_h := rtx5_headers 1.

(** Concrete kernels for the examples: no object yet, thread 1 of priority 10
    running at tick 100, a pool of two blocks. *)
Definition idle_thread : os_thread_t := mk_thread 1 10.

Definition boot : kernel :=
  mk_kernel ∅ 0 false 100 idle_thread true (Some [4096; 4112]) [] false [].

(** [boot] inside an interrupt handler. *)
Definition boot_irq : kernel :=
  mk_kernel ∅ 15 false 100 idle_thread true (Some [4096; 4112]) [] false [].

(** Attributes naming a caller-supplied control block at address 8192. *)
Definition caller_block : osSemaphoreAttr_t := mk_attr 0 0 8192 16.

(** A kernel whose memory holds the control block [s] at address 4096. *)
Definition with_object (s : os_semaphore_t) : kernel := put 4096 s boot.

(** Three waiting threads: one of low priority, two of the same high
    priority. *)
Definition low : os_thread_t := mk_thread 2 8.
Definition high_first : os_thread_t := mk_thread 3 24.
Definition high_second : os_thread_t := mk_thread 4 24.

Definition three_waiters : os_semaphore_t :=
  mk_semaphore 5 1 0 0 [high_first; high_second; low] 0 3.

(** An Active object of capacity 3 without tokens, one thread waiting. *)
Definition one_waiter : os_semaphore_t := mk_semaphore 5 1 0 0 [idle_thread] 0 3.

(** [New(1, 0, default)] on [boot], then an Acquire with timeout 5 that
    blocks the running thread. *)
Definition blocked : option (unit * kernel) :=
  (let! h := svcRtxSemaphoreNew (H := rtx5_masking) 1 0 None in
   perform (H := rtx5_masking) (ThreadAcquire 5) h) boot.

(** A kernel-owned object with the three threads waiting. *)
Definition system_waiters : os_semaphore_t :=
  mk_semaphore 5 1 1 0 [high_first; high_second; low] 0 3.

(** ** Further functions of rtx_semaphore.c *)

Section get_name.
Context `{rtx_lib_h}.

(** The event recorder hook [EvrRtxSemaphoreGetName(semaphore, name)] of
    rtx_evr.c, which is not among the source files. *)
Variable EvrRtxSemaphoreGetName : Z -> Z -> M unit.

Definition svcRtxSemaphoreGetName (semaphore_id : Z) : M Z :=
  let semaphore := semaphore_id in
  let! bad := not_a_semaphore semaphore in
  if bad then
    EvrRtxSemaphoreGetName semaphore NULL >> ret NULL
  else
    let! s := load semaphore in
    if state s =? osRtxObjectInactive then
      EvrRtxSemaphoreGetName semaphore NULL >> ret NULL
    else
      EvrRtxSemaphoreGetName semaphore (name s) >> ret (name s).

Definition __svcSemaphoreGetName := svcRtxSemaphoreGetName.

Definition osSemaphoreGetName (semaphore_id : Z) : M Z :=
  let! irq := in_irq in
  if irq then
    EvrRtxSemaphoreGetName semaphore_id NULL >> ret NULL
  else __svcSemaphoreGetName semaphore_id.

End get_name.

(** A recorder hook that returns and leaves the kernel's objects, CPU state
    and allocator alone: recording is for observation only. *)
Definition passive (hook : Z -> Z -> M unit) : Prop :=
  forall a b k, exists k', hook a b k = Some (tt, k') /\ mem k' = mem k.

(** The recorder switched off. *)
Definition no_recorder : Z -> Z -> M unit := fun _ _ => ret tt.

(** ** Vocabulary of the further properties *)

(** The control block the caller supplies in [attr], NULL for none. *)
Definition supplied_block (attr : option osSemaphoreAttr_t) : Z :=
  match attr with
  | Some a => cb_mem a
  | None => NULL
  end.

(** The name the caller supplies in [attr], NULL for none. *)
Definition supplied_name (attr : option osSemaphoreAttr_t) : Z :=
  match attr with
  | Some a => attr_name a
  | None => NULL
  end.

(** Number of recorded grants of a token of [h] ([EvrRtxSemaphoreAcquired]). *)
Definition is_grant (h : Z) (e : event * gmap Z os_semaphore_t) : bool :=
  match fst e with
  | EvrRtxSemaphoreAcquired x => x =? h
  | _ => false
  end.

Definition grants (h : Z) (k : kernel) : Z :=
  Z.of_nat (length (filter (fun e => is_grant h e = true) (trace k))).

(** Number of recorded releases of a token of [h]
    ([EvrRtxSemaphoreReleased]). *)
Definition is_release (h : Z) (e : event * gmap Z os_semaphore_t) : bool :=
  match fst e with
  | EvrRtxSemaphoreReleased x => x =? h
  | _ => false
  end.

Definition releases (h : Z) (k : kernel) : Z :=
  Z.of_nat (length (filter (fun e => is_release h e = true) (trace k))).

(** Number of registrations of [h] for post-processing. *)
Definition is_registration (h : Z) (e : event * gmap Z os_semaphore_t) : bool :=
  match fst e with
  | PostProcess x => x =? h
  | _ => false
  end.

Definition registrations (h : Z) (k : kernel) : Z :=
  Z.of_nat (length (filter (fun e => is_registration h e = true) (trace k))).

(** The fields of a control block that are fixed at creation. *)
Definition same_identity (s s' : os_semaphore_t) : Prop :=
  obj_id s' = obj_id s /\ state s' = state s /\ flags s' = flags s /\
  name s' = name s /\ max_tokens s' = max_tokens s.

(** What one operation of the core keeps: the semaphore it is called on
    stays a valid Active one with the same identity and tokens within
    capacity, the counter moves with the recorded releases and grants, the
    CPU state stays as it is. *)
Definition step_keeps `{rtx_lib_h} (h : Z) (s : os_semaphore_t) (k : kernel)
    (s' : os_semaphore_t) (k' : kernel) : Prop :=
  valid_active h s' k' /\ same_identity s s' /\
  0 <= tokens s' <= max_tokens s' /\
  tokens s' + grants h k' - releases h k' = tokens s + grants h k - releases h k /\
  IPSR k' = IPSR k /\ PRIMASK k' = PRIMASK k.

(** Between [k] and [k'] every object but the one at [h], the interrupt
    mask, the handler number and the tick are the same. *)
Definition untouched (h : Z) (k k' : kernel) : Prop :=
  (forall h', h' <> h -> mem k' !! h' = mem k !! h') /\
  IPSR k' = IPSR k /\ PRIMASK k' = PRIMASK k /\ kernel_tick k' = kernel_tick k.

(** A foreign object: mapped, but not a semaphore. *)
Definition timer_object : os_semaphore_t := mk_semaphore 2 1 0 0 [] 0 0.

(** An Active object of capacity 3 holding 2 tokens, nobody waiting. *)
Definition two_tokens : os_semaphore_t := mk_semaphore 5 1 0 0 [] 2 3.

(** An Active object of capacity 3 without tokens, nobody waiting. *)
Definition no_tokens : os_semaphore_t := mk_semaphore 5 1 0 0 [] 0 3.

(** Attributes naming the object, storage left to the kernel. *)
Definition named : osSemaphoreAttr_t := mk_attr 777 0 0 0.

(** * Properties *)

(** Symbolic execution: unfold the monad, then project through the record
    updates. *)
Ltac kred :=
  cbv beta iota zeta delta [bind ret get modify undefined load update store emit] in *;
  cbn [put log
       set_mem set_trace set_PRIMASK set_mpi_semaphore set_mem_common set_post_process_semaphore
       mem trace PRIMASK IPSR kernel_tick thread_run_curr suspendable mpi_semaphore mem_common
       post_process_semaphore
       set_tokens set_state set_thread_list obj_id state flags name thread_list tokens max_tokens
       fst snd negb orb andb Z.eqb Pos.eqb] in *.

(** With the kernel record opened, both sides are brought to one record. *)
Ltac kflat :=
  cbv beta iota delta
    [put log set_mem set_trace set_PRIMASK set_mpi_semaphore set_mem_common
     set_post_process_semaphore
     mem trace PRIMASK IPSR kernel_tick thread_run_curr suspendable mpi_semaphore mem_common
     post_process_semaphore] in *.

Ltac kopen k :=
  destruct k as [k_mem k_ipsr k_pm k_tick k_cur k_susp k_mpi k_common k_pp k_tr]; kred; kflat.

Section execution.
Context `{rtx_lib_h}.

Lemma active_not_inactive : (osRtxObjectActive =? osRtxObjectInactive) = false.
Proof. apply Z.eqb_neq, object_states_differ. Qed.

Lemma guarded_valid h s k body : valid_active h s k -> guarded h s k body = body.
Proof.
  intros (_ & _ & Hid & Hst). unfold guarded.
  now rewrite Hid, Z.eqb_refl, Hst, active_not_inactive.
Qed.

Lemma guarded_inactive h s k body :
  obj_id s = osRtxIdSemaphore -> state s = osRtxObjectInactive ->
  guarded h s k body =
    Some (osErrorResource, log (EvrRtxSemaphoreError h (evr_status osErrorResource)) k).
Proof. intros Hid Hst. unfold guarded. now rewrite Hid, Hst, !Z.eqb_refl. Qed.

Lemma SemaphoreTokenDecrement_run h s k :
  mem k !! h = Some s ->
  SemaphoreTokenDecrement h k =
    if tokens s =? 0 then Some (0, k)
    else Some (1, put h (set_tokens ((tokens s - 1) mod 65536) s) k).
Proof.
  intros Hs. kopen k.
  unfold SemaphoreTokenDecrement, atomic_dec16_nz, __get_PRIMASK, __disable_irq, __enable_irq.
  destruct (EXCLUSIVE_ACCESS =? 0); kred; repeat (rewrite Hs; kred);
    destruct (tokens s =? 0) eqn:E; kred; repeat (rewrite Hs; kred);
    rewrite ?E; kred; destruct k_pm; reflexivity.
Qed.

Lemma SemaphoreTokenIncrement_run h s k :
  mem k !! h = Some s ->
  SemaphoreTokenIncrement h k =
    if tokens s <? max_tokens s
    then Some (1, put h (set_tokens ((tokens s + 1) mod 65536) s) k)
    else Some (0, k).
Proof.
  intros Hs. kopen k.
  unfold SemaphoreTokenIncrement, atomic_inc16_lt, __get_PRIMASK, __disable_irq, __enable_irq.
  destruct (EXCLUSIVE_ACCESS =? 0); kred; repeat (rewrite Hs; kred);
    destruct (tokens s <? max_tokens s) eqn:E; kred; repeat (rewrite Hs; kred);
    rewrite ?E; kred; destruct k_pm; reflexivity.
Qed.

Lemma not_a_semaphore_run h s k :
  h <> NULL -> mem k !! h = Some s ->
  not_a_semaphore h k = Some (negb (obj_id s =? osRtxIdSemaphore), k).
Proof.
  intros Hh Hs. unfold not_a_semaphore.
  destruct (h =? NULL) eqn:E; [apply Z.eqb_eq in E; contradiction|].
  kred. now rewrite Hs.
Qed.

(** Head of every service call on a handle. *)
Ltac enter h s k Hh Hs :=
  kred; rewrite (not_a_semaphore_run h s k Hh Hs); unfold guarded;
  destruct (obj_id s =? osRtxIdSemaphore); kred; [|reflexivity];
  rewrite Hs; destruct (state s =? osRtxObjectInactive); kred; [reflexivity|].

Lemma svcRtxSemaphoreAcquire_run h s k timeout :
  h <> NULL -> mem k !! h = Some s ->
  svcRtxSemaphoreAcquire h timeout k =
    guarded h s k
      (if negb (tokens s =? 0) then
         let k1 := put h (set_tokens ((tokens s - 1) mod 65536) s) k in
         Some (osOK, log (EvrRtxSemaphoreAcquired h) k1)
       else if negb (timeout =? 0) then
         let k1 := log (EvrRtxSemaphoreAcquirePending h timeout) k in
         if suspendable k then
           let k2 := log (ThreadWaitEnter (thread_run_curr k) osRtxThreadWaitingSemaphore
                            timeout) k1 in
           Some (osErrorTimeout,
                 put h (set_thread_list
                          (thread_list_put (thread_run_curr k) (thread_list s)) s) k2)
         else Some (osErrorTimeout, log (EvrRtxSemaphoreAcquireTimeout h) k1)
       else Some (osErrorResource, log (EvrRtxSemaphoreNotAcquired h) k)).
Proof.
  intros Hh Hs. unfold svcRtxSemaphoreAcquire. enter h s k Hh Hs.
  rewrite (SemaphoreTokenDecrement_run h s k Hs).
  destruct (tokens s =? 0); kred; [|reflexivity].
  destruct (timeout =? 0); kred; [reflexivity|].
  unfold osRtxThreadWaitEnter, osRtxThreadGetRunning, osRtxThreadListPut.
  kopen k. destruct k_susp; kred; [|reflexivity].
  now rewrite Hs.
Qed.

Lemma isrRtxSemaphoreAcquire_run h s k :
  h <> NULL -> mem k !! h = Some s ->
  isrRtxSemaphoreAcquire h 0 k =
    guarded h s k
      (if negb (tokens s =? 0) then
         let k1 := put h (set_tokens ((tokens s - 1) mod 65536) s) k in
         Some (osOK, log (EvrRtxSemaphoreAcquired h) k1)
       else Some (osErrorResource, log (EvrRtxSemaphoreNotAcquired h) k)).
Proof.
  intros Hh Hs. unfold isrRtxSemaphoreAcquire. enter h s k Hh Hs.
  rewrite (SemaphoreTokenDecrement_run h s k Hs).
  destruct (tokens s =? 0); reflexivity.
Qed.

Lemma svcRtxSemaphoreRelease_run h s k :
  h <> NULL -> mem k !! h = Some s ->
  svcRtxSemaphoreRelease h k =
    guarded h s k
      match thread_list s with
      | thread :: rest =>
          let k1 := log (EvrRtxSemaphoreReleased h) k in
          let k2 := put h (set_thread_list rest s) k1 in
          Some (osOK, log (EvrRtxSemaphoreAcquired h) (log (ThreadWaitExit thread osOK true) k2))
      | [] =>
          if tokens s <? max_tokens s then
            let k1 := put h (set_tokens ((tokens s + 1) mod 65536) s) k in
            Some (osOK, log (EvrRtxSemaphoreReleased h) k1)
          else
            Some (osErrorResource,
                  log (EvrRtxSemaphoreError h osRtxErrorSemaphoreCountLimit) k)
      end.
Proof.
  intros Hh Hs. unfold svcRtxSemaphoreRelease. enter h s k Hh Hs.
  destruct (thread_list s) as [|thread rest] eqn:El; kred.
  - rewrite (SemaphoreTokenIncrement_run h s k Hs).
    destruct (tokens s <? max_tokens s); reflexivity.
  - unfold osRtxThreadListGet, osRtxThreadWaitExit. kred.
    rewrite Hs, El. kred. now rewrite Hs.
Qed.

Lemma isrRtxSemaphoreRelease_run h s k :
  h <> NULL -> mem k !! h = Some s ->
  isrRtxSemaphoreRelease h k =
    guarded h s k
      (if tokens s <? max_tokens s then
         let k1 := put h (set_tokens ((tokens s + 1) mod 65536) s) k in
         Some (osOK, log (EvrRtxSemaphoreReleased h) (log (PostProcess h) k1))
       else
         Some (osErrorResource,
               log (EvrRtxSemaphoreError h osRtxErrorSemaphoreCountLimit) k)).
Proof.
  intros Hh Hs. unfold isrRtxSemaphoreRelease. enter h s k Hh Hs.
  rewrite (SemaphoreTokenIncrement_run h s k Hs).
  destruct (tokens s <? max_tokens s); reflexivity.
Qed.

Lemma osRtxSemaphorePostProcess_run h s k :
  mem k !! h = Some s ->
  osRtxSemaphorePostProcess h k =
    if state s =? osRtxObjectInactive then Some (tt, k)
    else
      match thread_list s with
      | [] => Some (tt, k)
      | thread :: rest =>
          if tokens s =? 0 then Some (tt, k)
          else
            let s1 := set_tokens ((tokens s - 1) mod 65536) s in
            let k1 := put h (set_thread_list rest s1) (put h s1 k) in
            Some (tt, log (EvrRtxSemaphoreAcquired h) (log (ThreadWaitExit thread osOK false) k1))
      end.
Proof.
  intros Hs. unfold osRtxSemaphorePostProcess. kred. rewrite Hs.
  destruct (state s =? osRtxObjectInactive); [reflexivity|].
  destruct (thread_list s) as [|thread rest] eqn:El; [reflexivity|].
  rewrite (SemaphoreTokenDecrement_run h s k Hs).
  destruct (tokens s =? 0); kred; [reflexivity|].
  unfold osRtxThreadListGet, osRtxThreadWaitExit. kred.
  rewrite lookup_insert_eq. kred. rewrite El. kred.
  now rewrite lookup_insert_eq.
Qed.

Lemma svcRtxSemaphoreGetCount_run h s k :
  h <> NULL -> mem k !! h = Some s ->
  svcRtxSemaphoreGetCount h k =
    if negb (obj_id s =? osRtxIdSemaphore) || (state s =? osRtxObjectInactive)
    then Some (0, log (EvrRtxSemaphoreGetCount h 0) k)
    else Some (tokens s, log (EvrRtxSemaphoreGetCount h (tokens s)) k).
Proof.
  intros Hh Hs. unfold svcRtxSemaphoreGetCount. kred.
  rewrite (not_a_semaphore_run h s k Hh Hs).
  destruct (obj_id s =? osRtxIdSemaphore); kred; [|reflexivity].
  rewrite Hs. destruct (state s =? osRtxObjectInactive); reflexivity.
Qed.

Lemma in_irq_run k : in_irq k = Some (negb (IPSR k =? 0) || PRIMASK k, k).
Proof.
  unfold in_irq, IsIrqMode, IsIrqMasked, __get_PRIMASK. kred.
  destruct (IPSR k =? 0); kred; [|reflexivity]. now destruct (PRIMASK k).
Qed.

Lemma in_irq_context k : irq_context k -> in_irq k = Some (true, k).
Proof.
  intros Hc. rewrite in_irq_run. destruct Hc as [Hi|Hp].
  - apply Z.eqb_neq in Hi. now rewrite Hi.
  - rewrite Hp. now rewrite orb_true_r.
Qed.

Lemma svcRtxSemaphoreNew_run max_count initial_count attr k :
  svcRtxSemaphoreNew max_count initial_count attr k =
    if (max_count =? 0) || (max_count >? osRtxSemaphoreTokenLimit) || (initial_count >? max_count)
    then Some (NULL, log (EvrRtxSemaphoreError NULL (evr_status osErrorParameter)) k)
    else
      match process_attributes attr with
      | None => Some (NULL, log (EvrRtxSemaphoreError NULL osRtxErrorInvalidControlBlock) k)
      | Some (nm, cb) =>
          let k1 := if cb =? NULL then take_block k else k in
          let h := storage attr k in
          if h =? NULL
          then Some (NULL, log (EvrRtxSemaphoreError NULL (evr_status osErrorNoMemory)) k1)
          else
            let s := mk_semaphore osRtxIdSemaphore osRtxObjectActive
                       (if cb =? NULL then osRtxFlagSystemObject else 0) nm []
                       (initial_count mod 65536) (max_count mod 65536) in
            Some (h, log (EvrRtxSemaphoreCreated h nm)
                       (set_post_process_semaphore true (put h s k1)))
      end.
Proof.
  unfold svcRtxSemaphoreNew, storage.
  destruct ((max_count =? 0) || (max_count >? osRtxSemaphoreTokenLimit)
            || (initial_count >? max_count)); [reflexivity|].
  destruct (process_attributes attr) as [[nm cb]|]; [|reflexivity].
  kred. destruct (cb =? NULL) eqn:Ecb; kred.
  - unfold osRtxMemoryPoolAlloc, osRtxMemoryAlloc, next_block, take_block. kopen k.
    destruct k_mpi as [[|b rest]|]; kred.
    + reflexivity.
    + destruct (b =? NULL) eqn:Eb; kred; [apply Z.eqb_eq in Eb; subst b|]; reflexivity.
    + destruct k_common as [|b rest]; kred; [reflexivity|].
      destruct (b =? NULL) eqn:Eb; kred; [apply Z.eqb_eq in Eb; subst b|]; reflexivity.
  - rewrite Ecb. kred. reflexivity.
Qed.
Lemma wake_all_insert h s x m l :
  wake_all h s (<[h := x]> m) l = wake_all h s m l.
Proof.
  induction l as [|t rest IH]; [reflexivity|].
  cbn [wake_all]. now rewrite IH, insert_insert_eq.
Qed.

Lemma wake_all_set_thread_list h s l0 m l :
  wake_all h (set_thread_list l0 s) m l = wake_all h s m l.
Proof.
  induction l as [|t rest IH]; [reflexivity|].
  cbn [wake_all]. now rewrite IH.
Qed.

Lemma unblock_waiting_threads_run h l : forall s k,
  mem k !! h = Some s -> thread_list s = l -> l <> [] ->
  unblock_waiting_threads (length l) h k =
    Some (tt, set_trace (trace k ++ wake_all h s (mem k) l) (put h (set_thread_list [] s) k)).
Proof.
  induction l as [|t rest IH]; intros s k Hs Hl Hne; [contradiction|].
  cbn [length unblock_waiting_threads wake_all].
  unfold osRtxThreadListGet, osRtxThreadWaitExit. kred.
  rewrite Hs, Hl. kred. rewrite Hs. kred. rewrite lookup_insert_eq. kred.
  destruct rest as [|t2 rest2].
  - now kopen k.
  - rewrite (IH (set_thread_list (t2 :: rest2) s)); [|kred; apply lookup_insert_eq|reflexivity|discriminate].
    kopen k. rewrite wake_all_insert, wake_all_set_thread_list, insert_insert_eq, <- app_assoc. reflexivity.
Qed.

Lemma svcRtxSemaphoreDelete_run h s k :
  h <> NULL -> mem k !! h = Some s ->
  svcRtxSemaphoreDelete h k =
    guarded h s k
      (let s0 := set_state osRtxObjectInactive s in
       let k1 := set_trace (trace k ++ wake_all h s0 (mem k) (thread_list s))
                   (put h (set_thread_list [] s0) k) in
       let k2 := match thread_list s with [] => k1 | _ :: _ => log ThreadDispatch k1 end in
       let k3 := if system_object s then free_block h k2 else k2 in
       Some (osOK, log (EvrRtxSemaphoreDestroyed h) k3)).
Proof.
  intros Hh Hs. unfold svcRtxSemaphoreDelete.
  enter h s k Hh Hs.
  rewrite Hs. kred.
  unfold system_object, osRtxThreadDispatch, osRtxMemoryPoolFree, osRtxMemoryFree, free_block.
  destruct (thread_list s) as [|t rest] eqn:El.
  - kred. cbn [wake_all]. rewrite app_nil_r.
    replace (set_thread_list [] (set_state osRtxObjectInactive s))
      with (set_state osRtxObjectInactive s) by (unfold set_thread_list, set_state; cbn; now rewrite El).
    destruct (Z.land (flags s) osRtxFlagSystemObject =? 0); kopen k; [reflexivity|].
    destruct k_mpi; reflexivity.
  - rewrite <- El.
    rewrite (unblock_waiting_threads_run h (thread_list s) (set_state osRtxObjectInactive s));
      [|kred; apply lookup_insert_eq|reflexivity|rewrite El; discriminate].
    rewrite El. kred. rewrite wake_all_insert.
    destruct (Z.land (flags s) osRtxFlagSystemObject =? 0); kopen k;
      rewrite insert_insert_eq; [reflexivity|].
    destruct k_mpi; reflexivity.
Qed.
End execution.

(** ** Calls from thread context *)

Section thread_calls.
Context `{rtx_lib_h}.

Lemma uint16_pred x : uint16 x -> x <> 0 -> (x - 1) mod 65536 = x - 1.
Proof. unfold uint16. intros Hx Hn. apply Z.mod_small. lia. Qed.

Lemma uint16_succ x y : 0 <= x -> x < y -> uint16 y -> (x + 1) mod 65536 = x + 1.
Proof. unfold uint16. intros Hx Hxy Hy. apply Z.mod_small. lia. Qed.

Lemma osSemaphoreNew_thread max_count initial_count attr k :
  thread_context k ->
  osSemaphoreNew max_count initial_count attr k =
    svcRtxSemaphoreNew max_count initial_count attr
      (log (EvrRtxSemaphoreNew max_count initial_count attr) k).
Proof.
  intros [Hi Hp]. unfold osSemaphoreNew. kred. rewrite in_irq_run. kred.
  now rewrite Hi, Hp.
Qed.

Lemma osSemaphoreAcquire_thread h timeout k :
  thread_context k ->
  osSemaphoreAcquire h timeout k =
    svcRtxSemaphoreAcquire h timeout (log (EvrRtxSemaphoreAcquire h timeout) k).
Proof.
  intros [Hi Hp]. unfold osSemaphoreAcquire. kred. rewrite in_irq_run. kred.
  now rewrite Hi, Hp.
Qed.

Lemma osSemaphoreRelease_thread h k :
  thread_context k ->
  osSemaphoreRelease h k = svcRtxSemaphoreRelease h (log (EvrRtxSemaphoreRelease h) k).
Proof.
  intros [Hi Hp]. unfold osSemaphoreRelease. kred. rewrite in_irq_run. kred.
  now rewrite Hi, Hp.
Qed.

Lemma osSemaphoreGetCount_any h k : osSemaphoreGetCount h k = svcRtxSemaphoreGetCount h k.
Proof.
  unfold osSemaphoreGetCount. kred. rewrite in_irq_run.
  now destruct (negb (IPSR k =? 0) || PRIMASK k).
Qed.

Lemma take_block_frame k :
  mem (take_block k) = mem k /\ IPSR (take_block k) = IPSR k /\
  PRIMASK (take_block k) = PRIMASK k /\ trace (take_block k) = trace k.
Proof.
  unfold take_block. destruct (mpi_semaphore k) as [[|? ?]|]; [easy|easy|].
  now destruct (mem_common k).
Qed.

(** The object [svcRtxSemaphoreNew] writes for valid arguments and storage [h]. *)
Lemma svcRtxSemaphoreNew_ok max_count initial_count attr k :
  0 < max_count <= osRtxSemaphoreTokenLimit -> 0 <= initial_count <= max_count ->
  storage attr k <> NULL ->
  exists k' s,
    svcRtxSemaphoreNew max_count initial_count attr k = Some (storage attr k, k') /\
    valid_active (storage attr k) s k' /\
    thread_list s = [] /\ tokens s = initial_count /\ max_tokens s = max_count /\
    IPSR k' = IPSR k /\ PRIMASK k' = PRIMASK k.
Proof.
  intros Hmax Hinit Hh. pose proof token_limit_16bit as Hl.
  rewrite svcRtxSemaphoreNew_run.
  replace (max_count =? 0) with false by (symmetry; apply Z.eqb_neq; lia).
  replace (max_count >? osRtxSemaphoreTokenLimit) with false by (symmetry; rewrite Z.gtb_ltb; apply Z.ltb_ge; lia).
  replace (initial_count >? max_count) with false by (symmetry; rewrite Z.gtb_ltb; apply Z.ltb_ge; lia).
  cbn [orb].
  unfold storage in *. destruct (process_attributes attr) as [[nm cb]|]; [|contradiction].
  cbv zeta. apply Z.eqb_neq in Hh as Hhb. rewrite Hhb.
  eexists _, _. split; [reflexivity|].
  destruct (take_block_frame k) as (Hm & Hi & Hp & _).
  split; [split; [exact Hh|split; [kred; apply lookup_insert_eq|split; reflexivity]]|].
  kred. repeat split; try (apply Z.mod_small; lia); destruct (cb =? NULL); congruence.
Qed.

Lemma valid_active_log h s k e : valid_active h s k -> valid_active h s (log e k).
Proof. intros Hv. exact Hv. Qed.

Lemma valid_active_put h s s' k :
  valid_active h s k -> obj_id s' = obj_id s -> state s' = state s ->
  valid_active h s' (put h s' k).
Proof.
  intros (Hh & Hs & Hid & Hst) Hid' Hst'.
  split; [exact Hh|split; [apply lookup_insert_eq|split; congruence]].
Qed.

Lemma acquire0_step h s k :
  thread_context k -> valid_active h s k -> uint16 (tokens s) ->
  exists k',
    osSemaphoreAcquire h 0 k = Some (if tokens s =? 0 then osErrorResource else osOK, k') /\
    thread_context k' /\
    valid_active h (if tokens s =? 0 then s else set_tokens (tokens s - 1) s) k'.
Proof.
  intros Hc Hv Hu. rewrite (osSemaphoreAcquire_thread _ _ _ Hc).
  pose proof Hv as (Hh & Hs & _).
  rewrite (svcRtxSemaphoreAcquire_run h s (log _ k) 0 Hh Hs), (guarded_valid h s) by exact Hv.
  destruct (tokens s =? 0) eqn:E; kred.
  - eexists. split; [reflexivity|]. split; [exact Hc|exact Hv].
  - apply Z.eqb_neq in E. rewrite (uint16_pred _ Hu E).
    eexists. split; [reflexivity|]. split; [exact Hc|].
    apply valid_active_log, (valid_active_put h s); [exact Hv|reflexivity|reflexivity].
Qed.

Lemma release_step h s k :
  thread_context k -> valid_active h s k -> thread_list s = [] ->
  0 <= tokens s -> uint16 (max_tokens s) ->
  exists k',
    osSemaphoreRelease h k =
      Some (if tokens s <? max_tokens s then osOK else osErrorResource, k') /\
    thread_context k' /\
    valid_active h (if tokens s <? max_tokens s then set_tokens (tokens s + 1) s else s) k'.
Proof.
  intros Hc Hv Hl Ht Hu. rewrite (osSemaphoreRelease_thread _ _ Hc).
  pose proof Hv as (Hh & Hs & _).
  rewrite (svcRtxSemaphoreRelease_run h s (log _ k) Hh Hs), (guarded_valid h s) by exact Hv.
  rewrite Hl. destruct (tokens s <? max_tokens s) eqn:E; kred.
  - apply Z.ltb_lt in E. rewrite (uint16_succ _ _ Ht E Hu).
    eexists. split; [reflexivity|]. split; [exact Hc|].
    apply valid_active_log, (valid_active_put h s); [exact Hv|reflexivity|reflexivity].
  - eexists. split; [reflexivity|]. split; [exact Hc|exact Hv].
Qed.

Lemma get_count_step h s k :
  valid_active h s k ->
  osSemaphoreGetCount h k = Some (tokens s, log (EvrRtxSemaphoreGetCount h (tokens s)) k).
Proof.
  intros (Hh & Hs & Hid & Hst). rewrite osSemaphoreGetCount_any.
  rewrite (svcRtxSemaphoreGetCount_run h s k Hh Hs).
  now rewrite Hid, Hst, Z.eqb_refl, active_not_inactive.
Qed.

Lemma scenario_run k :
  thread_context k -> next_block k <> NULL ->
  exists k', scenario k = Some ((next_block k, osErrorResource, osOK, 1, osOK, 0), k').
Proof.
  intros Hc Hb. pose proof token_limit_16bit as Hlim.
  unfold scenario. kred.
  rewrite (osSemaphoreNew_thread _ _ _ _ Hc).
  destruct (svcRtxSemaphoreNew_ok 1 0 None (log (EvrRtxSemaphoreNew 1 0 None) k))
    as (k0 & s0 & E0 & Hv0 & Hl0 & Ht0 & Hm0 & Hi0 & Hp0); [lia|lia|exact Hb|].
  change (storage None (log (EvrRtxSemaphoreNew 1 0 None) k)) with (next_block k) in *.
  rewrite E0. set (h := next_block k) in *.
  assert (Hc0 : thread_context k0) by (destruct Hc; split; [rewrite Hi0|rewrite Hp0]; assumption).
  destruct (acquire0_step h s0 k0 Hc0 Hv0) as (k1 & E1 & Hc1 & Hv1);
    [rewrite Ht0; unfold uint16; lia|].
  rewrite Ht0 in E1, Hv1. cbn [Z.eqb] in E1, Hv1. rewrite E1.
  destruct (release_step h s0 k1 Hc1 Hv1 Hl0) as (k2 & E2 & Hc2 & Hv2);
    [lia|rewrite Hm0; unfold uint16; lia|].
  rewrite Ht0, Hm0 in E2, Hv2. change (0 <? 1) with true in E2, Hv2.
  change (0 + 1) with 1 in Hv2. cbv iota in E2, Hv2. rewrite E2.
  rewrite (get_count_step h _ k2 Hv2). cbn [tokens set_tokens].
  destruct (acquire0_step h _ (log (EvrRtxSemaphoreGetCount h 1) k2) Hc2 Hv2)
    as (k3 & E3 & Hc3 & Hv3); [cbn [tokens set_tokens]; unfold uint16; lia|].
  cbn [tokens set_tokens Z.eqb] in E3, Hv3. rewrite E3.
  rewrite (get_count_step h _ k3 Hv3). cbn [tokens set_tokens].
  eexists. reflexivity.
Qed.

(** C3: on a valid Active handle Acquire first attempts the atomic token
    decrement and returns Ok as soon as that succeeds; with [tokens > 0] it
    takes one token and returns Ok, with [tokens = 0] and a zero timeout it
    returns ResourceUnavailable and only the event recorder is called; the
    ISR variant with a zero timeout does the same.  On a
    fresh [New(1, 0, default)] object, in thread context and with a block to
    allocate, the calls Acquire(0), Release, GetCount, Acquire(0), GetCount
    return ResourceUnavailable, Ok, 1, Ok, 0. *)
Theorem C3_acquire_decrements_or_fails :
  (forall h s k timeout, valid_active h s k -> uint16 (tokens s) ->
     (exists r k1, SemaphoreTokenDecrement h k = Some (r, k1) /\
        (r <> 0 ->
         svcRtxSemaphoreAcquire h timeout k =
           Some (osOK, log (EvrRtxSemaphoreAcquired h) k1))) /\
     (0 < tokens s ->
      svcRtxSemaphoreAcquire h timeout k =
        Some (osOK, log (EvrRtxSemaphoreAcquired h)
                      (put h (set_tokens (tokens s - 1) s) k))) /\
     (tokens s = 0 ->
      svcRtxSemaphoreAcquire h 0 k =
        Some (osErrorResource, log (EvrRtxSemaphoreNotAcquired h) k)) /\
     isrRtxSemaphoreAcquire h 0 k = svcRtxSemaphoreAcquire h 0 k) /\
  (forall k, thread_context k -> next_block k <> NULL ->
     exists k', scenario k = Some ((next_block k, osErrorResource, osOK, 1, osOK, 0), k')).
Proof.
  split; [|exact scenario_run].
  intros h s k timeout Hv Hu. pose proof Hv as (Hh & Hs & _).
  rewrite (svcRtxSemaphoreAcquire_run h s k _ Hh Hs), (guarded_valid h s k _ Hv).
  rewrite (svcRtxSemaphoreAcquire_run h s k _ Hh Hs), (guarded_valid h s k _ Hv).
  rewrite (SemaphoreTokenDecrement_run h s k Hs).
  rewrite (isrRtxSemaphoreAcquire_run h s k Hh Hs), (guarded_valid h s k _ Hv).
  split; [|split; [|split]].
  - destruct (tokens s =? 0); eexists _, _; (split; [reflexivity|]); intros Hr;
      [contradiction|reflexivity].
  - intros Hpos. replace (tokens s =? 0) with false by (symmetry; apply Z.eqb_neq; lia).
    cbn [negb]. cbv zeta. rewrite (uint16_pred _ Hu) by lia. reflexivity.
  - intros Hz. rewrite Hz. reflexivity.
  - now destruct (tokens s =? 0).
Qed.
End thread_calls.

Lemma C3_witness :
  svcRtxSemaphoreAcquire (H := rtx5_masking) 4096 7
      (with_object (mk_semaphore 5 1 0 0 [] 2 3)) =
    Some (osOK, log (EvrRtxSemaphoreAcquired 4096)
                  (put 4096 (mk_semaphore 5 1 0 0 [] 1 3)
                     (with_object (mk_semaphore 5 1 0 0 [] 2 3)))) /\
  exists k', scenario (H := rtx5_exclusive) boot =
               Some ((4096, osErrorResource, osOK, 1, osOK, 0), k').
Proof.
  split.
  - refine (proj1 (proj2 (proj1 (C3_acquire_decrements_or_fails (H := rtx5_masking))
             4096 (mk_semaphore 5 1 0 0 [] 2 3) _ 7 _ _)) _).
    + repeat split; vm_compute; congruence.
    + unfold uint16; cbn; lia.
    + cbn; lia.
  - refine (proj2 (C3_acquire_decrements_or_fails (H := rtx5_exclusive)) boot _ _).
    + split; reflexivity.
    + vm_compute; congruence.
Defined.

(** ** Creation *)

Section creation.
Context `{rtx_lib_h}.

Lemma log_inj {A} (a b : A) e1 e2 k1 k2 :
  trace k1 = trace k2 -> Some (a, log e1 k1) = Some (b, log e2 k2) -> e1 = e2.
Proof.
  intros Ht E.
  apply (f_equal (fun r => match r with Some (_, k) => trace k | None => [] end)) in E.
  cbn in E. rewrite Ht in E. apply app_inv_head in E. congruence.
Qed.

Lemma bad_arguments_spec max_count initial_count :
  (max_count =? 0) || (max_count >? osRtxSemaphoreTokenLimit) || (initial_count >? max_count)
    = true
  <-> max_count = 0 \/ max_count > osRtxSemaphoreTokenLimit \/ initial_count > max_count.
Proof.
  rewrite !orb_true_iff, Z.eqb_eq, !Z.gtb_ltb, !Z.ltb_lt. lia.
Qed.

(** C5: [svcRtxSemaphoreNew] reports a parameter error and returns no
    handle exactly when [max_count] is 0, [max_count] exceeds the token limit
    or [initial_count] exceeds [max_count]; for valid counts and storage to
    initialise it returns a handle to an Active object whose [tokens] is
    [initial_count], and GetCount on that handle returns [initial_count]. *)
Theorem C5_new_checks_arguments max_count initial_count attr k :
  (svcRtxSemaphoreNew max_count initial_count attr k =
     Some (NULL, log (EvrRtxSemaphoreError NULL (evr_status osErrorParameter)) k)
   <-> max_count = 0 \/ max_count > osRtxSemaphoreTokenLimit \/ initial_count > max_count) /\
  (0 < max_count <= osRtxSemaphoreTokenLimit -> 0 <= initial_count <= max_count ->
   storage attr k <> NULL ->
   exists k' s,
     svcRtxSemaphoreNew max_count initial_count attr k = Some (storage attr k, k') /\
     valid_active (storage attr k) s k' /\ tokens s = initial_count /\
     osSemaphoreGetCount (storage attr k) k' =
       Some (initial_count,
             log (EvrRtxSemaphoreGetCount (storage attr k) initial_count) k')).
Proof.
  split.
  - rewrite <- bad_arguments_spec, svcRtxSemaphoreNew_run.
    destruct ((max_count =? 0) || (max_count >? osRtxSemaphoreTokenLimit)
              || (initial_count >? max_count)); [easy|].
    split; [|discriminate]. intros E. exfalso.
    destruct (process_attributes attr) as [[nm cb]|].
    + cbv zeta in E. destruct (storage attr k =? NULL) eqn:Eh.
      * apply log_inj in E; [discriminate|].
        destruct (cb =? NULL); [apply take_block_frame|reflexivity].
      * apply Z.eqb_neq in Eh. congruence.
    + apply log_inj in E; [discriminate|reflexivity].
  - intros Hmax Hinit Hh.
    destruct (svcRtxSemaphoreNew_ok max_count initial_count attr k Hmax Hinit Hh)
      as (k' & s & E & Hv & _ & Ht & _).
    exists k', s. rewrite (get_count_step _ s k' Hv), Ht. easy.
Qed.
End creation.

Lemma C5_witness :
  exists k' s,
    svcRtxSemaphoreNew (H := rtx5_masking) 3 2 (Some caller_block) boot = Some (8192, k') /\
    valid_active (H := rtx5_masking) 8192 s k' /\ tokens s = 2 /\
    osSemaphoreGetCount (H := rtx5_masking) 8192 k' =
      Some (2, log (EvrRtxSemaphoreGetCount 8192 2) k').
Proof.
  refine (proj2 (C5_new_checks_arguments (H := rtx5_masking) 3 2 (Some caller_block) boot) _ _ _).
  - cbn; lia.
  - lia.
  - vm_compute; congruence.
Defined.

(** ** Post-processing *)

Section post_processing.
Context `{rtx_lib_h}.

(** C10: [osRtxSemaphorePostProcess] on an Inactive object returns at once
    and changes nothing, and so it does on an object without tokens, with
    waiters or not; whenever it changes anything, the atomic token decrement
    succeeded and exactly one thread was woken with Ok. *)
Theorem C10_post_process_frame h s k :
  mem k !! h = Some s ->
  (state s = osRtxObjectInactive \/ tokens s = 0 ->
   osRtxSemaphorePostProcess h k = Some (tt, k)) /\
  (forall k', osRtxSemaphorePostProcess h k = Some (tt, k') -> k' <> k ->
     exists k1 thread,
       SemaphoreTokenDecrement h k = Some (1, k1) /\
       trace k' = trace k ++ [(ThreadWaitExit thread osOK false, mem k');
                              (EvrRtxSemaphoreAcquired h, mem k')]).
Proof.
  intros Hs. rewrite (osRtxSemaphorePostProcess_run h s k Hs).
  rewrite (SemaphoreTokenDecrement_run h s k Hs). split.
  - intros [Hst|Ht].
    + now rewrite Hst, Z.eqb_refl.
    + rewrite Ht. cbn [Z.eqb]. destruct (state s =? osRtxObjectInactive); [reflexivity|].
      now destruct (thread_list s).
  - intros k' E Hne.
    destruct (state s =? osRtxObjectInactive); [congruence|].
    destruct (thread_list s) as [|thread rest]; [congruence|].
    destruct (tokens s =? 0); [congruence|].
    injection E as <-. eexists _, thread. split; [reflexivity|].
    cbn. now rewrite <- app_assoc.
Qed.
End post_processing.

Lemma C10_witness :
  osRtxSemaphorePostProcess (H := rtx5_masking) 4096
      (with_object (mk_semaphore 5 1 0 0 [idle_thread] 0 3)) =
    Some (tt, with_object (mk_semaphore 5 1 0 0 [idle_thread] 0 3)).
Proof.
  refine (proj1 (C10_post_process_frame (H := rtx5_masking) 4096
                   (mk_semaphore 5 1 0 0 [idle_thread] 0 3) _ _) _).
  - reflexivity.
  - right. reflexivity.
Defined.

(** ** Delay *)

Section delay.
Context `{rtx_lib_h}.

Lemma svcRtxDelay_run ticks k :
  svcRtxDelay ticks k =
    if ticks =? 0 then Some (osOK, k)
    else if suspendable k
         then Some (osOK, log (ThreadWaitEnter (thread_run_curr k) osRtxThreadWaitingDelay ticks) k)
         else Some (osOK, log EvrRtxThreadDelayCompleted k).
Proof.
  unfold svcRtxDelay, osRtxThreadWaitEnter. kred.
  destruct (ticks =? 0); kred; [reflexivity|].
  destruct (suspendable k); reflexivity.
Qed.

Lemma svcRtxDelay_ok ticks k : exists k', svcRtxDelay ticks k = Some (osOK, k').
Proof.
  rewrite svcRtxDelay_run. destruct (ticks =? 0); [eauto|].
  destruct (suspendable k); eauto.
Qed.

(** C9: [svcRtxDelayUntil] takes the difference of the target and the
    current tick modulo 2^32; it reports a parameter error, without a
    suspension request, if and only if the difference is 0xFFFFFFFF, and is
    [svcRtxDelay] of the difference otherwise.  A target equal to the current
    tick, like a delay of 0, returns Ok and leaves the kernel as it is. *)
Theorem C9_delay_until absolute_tick k :
  let relative := (absolute_tick - kernel_tick k) mod 4294967296 in
  svcRtxDelayUntil absolute_tick k =
    (if relative =? 4294967295
     then Some (osErrorParameter,
                log (EvrRtxThreadError NULL (evr_status osErrorParameter)) k)
     else svcRtxDelay relative k) /\
  ((exists k', svcRtxDelayUntil absolute_tick k = Some (osErrorParameter, k'))
   <-> relative = 4294967295) /\
  suspensions (log (EvrRtxThreadError NULL (evr_status osErrorParameter)) k) = suspensions k /\
  svcRtxDelayUntil (kernel_tick k) k = Some (osOK, k) /\
  svcRtxDelay 0 k = Some (osOK, k).
Proof.
  intros relative.
  assert (E : svcRtxDelayUntil absolute_tick k =
    (if relative =? 4294967295
     then Some (osErrorParameter,
                log (EvrRtxThreadError NULL (evr_status osErrorParameter)) k)
     else svcRtxDelay relative k)).
  { unfold svcRtxDelayUntil, svcRtxDelay. kred. fold relative.
    destruct (relative =? 4294967295); reflexivity. }
  split; [exact E|]. split; [|split; [|split]].
  - rewrite E. destruct (relative =? 4294967295) eqn:Er.
    + apply Z.eqb_eq in Er. split; [easy|]. intros _. eauto.
    + apply Z.eqb_neq in Er. split; [|easy]. intros [k' E'].
      destruct (svcRtxDelay_ok relative k) as [k'' E'']. congruence.
  - unfold suspensions. cbn [log set_trace trace]. rewrite filter_app. cbn.
    rewrite decide_False by discriminate. cbn. apply app_nil_r.
  - unfold svcRtxDelayUntil. kred. now rewrite Z.sub_diag.
  - reflexivity.
Qed.
End delay.

(** ** Calls from interrupt context *)

Section interrupt_calls.
Context `{rtx_lib_h}.

Lemma suspensions_log e k :
  is_suspension (e, mem k) = false -> suspensions (log e k) = suspensions k.
Proof.
  intros He. unfold suspensions. cbn [log set_trace trace]. rewrite filter_app.
  cbn [filter list_filter]. rewrite decide_False by (rewrite He; discriminate).
  apply app_nil_r.
Qed.

Lemma osSemaphoreAcquire_irq h timeout k :
  irq_context k ->
  osSemaphoreAcquire h timeout k =
    isrRtxSemaphoreAcquire h timeout (log (EvrRtxSemaphoreAcquire h timeout) k).
Proof.
  intros Hc. unfold osSemaphoreAcquire. kred.
  now rewrite (in_irq_context (log _ k) Hc).
Qed.

Lemma osSemaphoreRelease_irq h k :
  irq_context k ->
  osSemaphoreRelease h k = isrRtxSemaphoreRelease h (log (EvrRtxSemaphoreRelease h) k).
Proof.
  intros Hc. unfold osSemaphoreRelease. kred.
  now rewrite (in_irq_context (log _ k) Hc).
Qed.

Lemma isrRtxSemaphoreAcquire_blocking h timeout k :
  timeout <> 0 -> h = NULL \/ is_Some (mem k !! h) ->
  isrRtxSemaphoreAcquire h timeout k =
    Some (osErrorParameter, log (EvrRtxSemaphoreError h (evr_status osErrorParameter)) k).
Proof.
  intros Ht Hh. apply Z.eqb_neq in Ht. unfold isrRtxSemaphoreAcquire. kred.
  destruct Hh as [->|[s Hs]].
  - reflexivity.
  - unfold not_a_semaphore. destruct (h =? NULL); kred; [reflexivity|].
    rewrite Hs, Ht. now rewrite orb_true_r.
Qed.

(** The reduced variants never ask the scheduler to suspend the caller. *)
Lemma isrRtxSemaphoreAcquire_no_suspension h k r k' :
  isrRtxSemaphoreAcquire h 0 k = Some (r, k') -> suspensions k' = suspensions k.
Proof.
  destruct (Z.eq_dec h NULL) as [->|Hh].
  - intros E. injection E as _ <-. now rewrite suspensions_log.
  - destruct (mem k !! h) as [s|] eqn:Hs.
    + rewrite (isrRtxSemaphoreAcquire_run h s k Hh Hs). unfold guarded.
      repeat match goal with |- context [if ?b then _ else _] => destruct b end;
        intros E; injection E as _ <-; rewrite ?suspensions_log by reflexivity; reflexivity.
    + unfold isrRtxSemaphoreAcquire, not_a_semaphore.
      apply Z.eqb_neq in Hh. rewrite Hh. kred. now rewrite Hs.
Qed.

Lemma isrRtxSemaphoreRelease_no_suspension h k r k' :
  isrRtxSemaphoreRelease h k = Some (r, k') -> suspensions k' = suspensions k.
Proof.
  destruct (Z.eq_dec h NULL) as [->|Hh].
  - intros E. injection E as _ <-. now rewrite suspensions_log.
  - destruct (mem k !! h) as [s|] eqn:Hs.
    + rewrite (isrRtxSemaphoreRelease_run h s k Hh Hs). unfold guarded.
      repeat match goal with |- context [if ?b then _ else _] => destruct b end;
        intros E; injection E as _ <-; rewrite ?suspensions_log by reflexivity; reflexivity.
    + unfold isrRtxSemaphoreRelease, not_a_semaphore.
      apply Z.eqb_neq in Hh. rewrite Hh. kred. now rewrite Hs.
Qed.

Lemma isr_calls_return h k :
  h = NULL \/ is_Some (mem k !! h) ->
  is_Some (isrRtxSemaphoreAcquire h 0 k) /\ is_Some (isrRtxSemaphoreRelease h k).
Proof.
  intros [->|[s Hs]]; [split; eexists; reflexivity|].
  destruct (Z.eq_dec h NULL) as [->|Hh]; [split; eexists; reflexivity|].
  rewrite (isrRtxSemaphoreAcquire_run h s k Hh Hs), (isrRtxSemaphoreRelease_run h s k Hh Hs).
  unfold guarded.
  split; repeat match goal with |- context [if ?b then _ else _] => destruct b end; eexists; reflexivity.
Qed.

(** C8: in interrupt context or with interrupts masked, Acquire with a
    non-zero timeout fails with a parameter error; Delete, Delay and
    DelayUntil fail with the ISR error; Acquire with timeout 0 and Release are
    the ISR variants run directly, they return and the trace gains no
    suspension request. *)
Theorem C8_interrupt_context k :
  irq_context k ->
  (forall h timeout, timeout <> 0 -> h = NULL \/ is_Some (mem k !! h) ->
     osSemaphoreAcquire h timeout k =
       Some (osErrorParameter,
             log (EvrRtxSemaphoreError h (evr_status osErrorParameter))
               (log (EvrRtxSemaphoreAcquire h timeout) k))) /\
  (forall h,
     osSemaphoreDelete h k =
       Some (osErrorISR,
             log (EvrRtxSemaphoreError h (evr_status osErrorISR))
               (log (EvrRtxSemaphoreDelete h) k))) /\
  (forall ticks,
     osDelay ticks k =
       Some (osErrorISR,
             log (EvrRtxThreadError NULL (evr_status osErrorISR))
               (log (EvrRtxThreadDelay ticks) k)) /\
     osDelayUntil ticks k =
       Some (osErrorISR,
             log (EvrRtxThreadError NULL (evr_status osErrorISR))
               (log (EvrRtxThreadDelayUntil ticks) k))) /\
  (forall h,
     osSemaphoreAcquire h 0 k =
       isrRtxSemaphoreAcquire h 0 (log (EvrRtxSemaphoreAcquire h 0) k) /\
     osSemaphoreRelease h k =
       isrRtxSemaphoreRelease h (log (EvrRtxSemaphoreRelease h) k)) /\
  (forall h, h = NULL \/ is_Some (mem k !! h) ->
     exists r1 k1 r2 k2,
       osSemaphoreAcquire h 0 k = Some (r1, k1) /\ suspensions k1 = suspensions k /\
       osSemaphoreRelease h k = Some (r2, k2) /\ suspensions k2 = suspensions k).
Proof.
  intros Hc. split; [|split; [|split; [|split]]].
  - intros h timeout Ht Hh. rewrite (osSemaphoreAcquire_irq h timeout k Hc).
    now apply isrRtxSemaphoreAcquire_blocking.
  - intros h. unfold osSemaphoreDelete. kred.
    now rewrite (in_irq_context (log _ k) Hc).
  - intros ticks. unfold osDelay, osDelayUntil. kred.
    now rewrite !(in_irq_context (log _ k) Hc).
  - intros h. now rewrite osSemaphoreAcquire_irq, osSemaphoreRelease_irq.
  - intros h Hh. rewrite osSemaphoreAcquire_irq, osSemaphoreRelease_irq by exact Hc.
    destruct (isr_calls_return h (log (EvrRtxSemaphoreAcquire h 0) k) Hh)
      as [[[r1 k1] E1] _].
    destruct (isr_calls_return h (log (EvrRtxSemaphoreRelease h) k) Hh)
      as [_ [[r2 k2] E2]].
    exists r1, k1, r2, k2. rewrite E1, E2.
    apply isrRtxSemaphoreAcquire_no_suspension in E1.
    apply isrRtxSemaphoreRelease_no_suspension in E2.
    rewrite E1, E2. rewrite !suspensions_log by reflexivity. easy.
Qed.
End interrupt_calls.

Lemma C8_witness :
  osSemaphoreAcquire (H := rtx5_masking) 4096 5 (put 4096 two_tokens boot_irq) =
    Some (osErrorParameter,
          log (EvrRtxSemaphoreError 4096 (evr_status osErrorParameter))
            (log (EvrRtxSemaphoreAcquire 4096 5) (put 4096 two_tokens boot_irq))) /\
  osSemaphoreDelete (H := rtx5_masking) 4096 (put 4096 two_tokens boot_irq) =
    Some (osErrorISR,
          log (EvrRtxSemaphoreError 4096 (evr_status osErrorISR))
            (log (EvrRtxSemaphoreDelete 4096) (put 4096 two_tokens boot_irq))) /\
  exists r1 k1 r2 k2,
    osSemaphoreAcquire (H := rtx5_masking) 4096 0 (put 4096 two_tokens boot_irq) =
      Some (r1, k1) /\
    suspensions k1 = suspensions (put 4096 two_tokens boot_irq) /\
    osSemaphoreRelease (H := rtx5_masking) 4096 (put 4096 two_tokens boot_irq) =
      Some (r2, k2) /\
    suspensions k2 = suspensions (put 4096 two_tokens boot_irq).
Proof.
  assert (Hc : irq_context (put 4096 two_tokens boot_irq)) by (left; discriminate).
  pose proof (C8_interrupt_context (H := rtx5_masking) (put 4096 two_tokens boot_irq) Hc)
    as (Hacquire & Hdelete & _ & _ & Hreduced).
  split; [|split].
  - apply Hacquire; [discriminate|]. right. eexists. reflexivity.
  - apply Hdelete.
  - apply Hreduced. right. eexists. reflexivity.
Defined.

(** The same call from thread context takes a token: the parameter error
    above comes from the interrupt-context check of the timeout. *)
Example acquire_with_timeout_in_thread_context :
  exists k',
    osSemaphoreAcquire (H := rtx5_masking) 4096 5 (with_object two_tokens) =
      Some (osOK, k') /\
    mem k' !! 4096 = Some (mk_semaphore 5 1 0 0 [] 1 3).
Proof. eexists. split; vm_compute; reflexivity. Qed.

(** ** Release and the wait list *)

Section release.
Context `{rtx_lib_h}.

Lemma wait_list_of_snoc arrivals thread :
  wait_list_of (arrivals ++ [thread]) = thread_list_put thread (wait_list_of arrivals).
Proof. unfold wait_list_of. now rewrite fold_left_app. Qed.

(** The head of the wait list is the earliest arrival among the threads of
    highest priority, and unlinking it leaves the wait list of the others. *)
Lemma wait_list_of_head arrivals :
  arrivals <> [] ->
  exists earlier thread later,
    arrivals = earlier ++ thread :: later /\
    Forall (fun t => priority t < priority thread) earlier /\
    Forall (fun t => priority t <= priority thread) later /\
    wait_list_of arrivals = thread :: wait_list_of (earlier ++ later).
Proof.
  induction arrivals as [|x arrivals IH] using rev_ind; [contradiction|]. intros _.
  rewrite wait_list_of_snoc.
  destruct arrivals as [|a arrivals'].
  - exists [], x, []. cbn. repeat split; constructor.
  - destruct IH as (earlier & thread & later & Ea & He & Hl & Ew); [discriminate|].
    rewrite Ew. cbn [thread_list_put].
    destruct (priority thread >=? priority x) eqn:Ep.
    + exists earlier, thread, (later ++ [x]). split; [|split; [|split]].
      * rewrite Ea, <- app_assoc. reflexivity.
      * exact He.
      * apply Forall_app. split; [exact Hl|]. constructor; [|constructor].
        apply Z.geb_le in Ep. lia.
      * now rewrite app_assoc, wait_list_of_snoc.
    + exists (a :: arrivals'), x, []. rewrite app_nil_r, Ew.
      repeat split; [|constructor].
      assert (Hp : priority thread < priority x).
      { destruct (Z.geb_spec (priority thread) (priority x)); [discriminate|lia]. }
      rewrite Ea. apply Forall_app. split.
      * eapply Forall_impl; [exact He|]. cbn. lia.
      * constructor; [exact Hp|]. eapply Forall_impl; [exact Hl|]. cbn. lia.
Qed.

(** C2: thread-context Release on a valid Active handle.  With threads
    waiting, enqueued in the order [arrivals], it unlinks the earliest
    arrival among those of highest priority, wakes it with Ok and leaves
    [tokens] as it is; without waiters it adds a token and returns Ok when
    [tokens < max_tokens], and changes nothing and reports
    ResourceUnavailable (count limit) when [tokens = max_tokens]. *)
Theorem C2_release h s k arrivals :
  valid_active h s k -> thread_list s = wait_list_of arrivals ->
  uint16 (tokens s) -> uint16 (max_tokens s) ->
  (arrivals <> [] ->
   exists earlier thread later,
     arrivals = earlier ++ thread :: later /\
     Forall (fun t => priority t < priority thread) earlier /\
     Forall (fun t => priority t <= priority thread) later /\
     let s' := set_thread_list (wait_list_of (earlier ++ later)) s in
     tokens s' = tokens s /\
     svcRtxSemaphoreRelease h k =
       Some (osOK,
             log (EvrRtxSemaphoreAcquired h)
               (log (ThreadWaitExit thread osOK true)
                  (put h s' (log (EvrRtxSemaphoreReleased h) k))))) /\
  (arrivals = [] -> tokens s < max_tokens s ->
   svcRtxSemaphoreRelease h k =
     Some (osOK, log (EvrRtxSemaphoreReleased h)
                   (put h (set_tokens (tokens s + 1) s) k))) /\
  (arrivals = [] -> tokens s = max_tokens s ->
   svcRtxSemaphoreRelease h k =
     Some (osErrorResource,
           log (EvrRtxSemaphoreError h osRtxErrorSemaphoreCountLimit) k)).
Proof.
  intros Hv Hl Ht Hm. pose proof Hv as (Hh & Hs & _).
  rewrite (svcRtxSemaphoreRelease_run h s k Hh Hs), (guarded_valid h s k _ Hv), Hl.
  split; [|split].
  - intros Hne.
    destruct (wait_list_of_head arrivals Hne) as (earlier & thread & later & Ea & He & Hla & Ew).
    exists earlier, thread, later. rewrite Ew. easy.
  - intros -> Hlt. cbn [wait_list_of fold_left].
    apply Z.ltb_lt in Hlt as Hb. rewrite Hb. cbv zeta.
    now rewrite (uint16_succ (tokens s) (max_tokens s)) by (unfold uint16 in *; lia).
  - intros -> He. cbn [wait_list_of fold_left].
    now rewrite He, Z.ltb_irrefl.
Qed.
End release.

Lemma C2_witness :
  exists earlier thread later,
    [low; high_first; high_second] = earlier ++ thread :: later /\
    Forall (fun t => priority t < priority thread) earlier /\
    Forall (fun t => priority t <= priority thread) later /\
    let s' := set_thread_list (wait_list_of (earlier ++ later)) three_waiters in
    tokens s' = tokens three_waiters /\
    svcRtxSemaphoreRelease (H := rtx5_masking) 4096 (with_object three_waiters) =
      Some (osOK,
            log (EvrRtxSemaphoreAcquired 4096)
              (log (ThreadWaitExit thread osOK true)
                 (put 4096 s' (log (EvrRtxSemaphoreReleased 4096)
                                 (with_object three_waiters))))).
Proof.
  refine (proj1 (C2_release (H := rtx5_masking) 4096 three_waiters
                   (with_object three_waiters) [low; high_first; high_second] _ _ _ _) _).
  - repeat split; vm_compute; congruence.
  - reflexivity.
  - unfold uint16; cbn; lia.
  - unfold uint16; cbn; lia.
  - discriminate.
Defined.

Example release_wakes_first_of_highest :
  exists k',
    svcRtxSemaphoreRelease (H := rtx5_masking) 4096 (with_object three_waiters) =
      Some (osOK, k') /\
    mem k' !! 4096 = Some (mk_semaphore 5 1 0 0 [high_second; low] 0 3) /\
    fst <$> last (trace k') = Some (EvrRtxSemaphoreAcquired 4096) /\
    In (ThreadWaitExit high_first osOK true) (map fst (trace k')).
Proof.
  eexists. split; [vm_compute; reflexivity|].
  split; [vm_compute; reflexivity|]. split; [reflexivity|]. cbn. tauto.
Qed.

(** ** Post-processing against thread-context Release *)

Section deferred_wake.
Context `{rtx_lib_h}.

Lemma wakeups_log e k :
  wakeups (log e k) = wakeups k ++ match wakeup (e, mem k) with Some w => [w] | None => [] end.
Proof.
  unfold wakeups. cbn [log set_trace trace]. rewrite omap_app. cbn [omap list_omap].
  now destruct (wakeup (e, mem k)).
Qed.

Lemma wakeups_put h s k : wakeups (put h s k) = wakeups k.
Proof. reflexivity. Qed.

Ltac wakeups_norm :=
  repeat (rewrite ?wakeups_log, ?wakeups_put; cbn [wakeup fst]);
  rewrite ?app_nil_r, <- ?app_assoc.

(** C4, as amended: on an Active object with a non-empty wait list,
    thread-context Release unlinks the head waiter and wakes it with Ok,
    [tokens] untouched.  [osRtxSemaphorePostProcess] wakes the same waiter
    with Ok and leaves the same wait list only when [tokens] is not 0, and
    then it also takes one token; with [tokens = 0] it does nothing. *)
Theorem C4_post_process_against_release h s k thread rest :
  valid_active h s k -> thread_list s = thread :: rest -> uint16 (tokens s) ->
  (exists kr,
     svcRtxSemaphoreRelease h k = Some (osOK, kr) /\
     mem kr !! h = Some (set_thread_list rest s) /\
     wakeups kr = wakeups k ++ [(thread, osOK)]) /\
  (tokens s <> 0 ->
   exists kp,
     osRtxSemaphorePostProcess h k = Some (tt, kp) /\
     mem kp !! h = Some (set_tokens (tokens s - 1) (set_thread_list rest s)) /\
     wakeups kp = wakeups k ++ [(thread, osOK)]) /\
  (tokens s = 0 -> osRtxSemaphorePostProcess h k = Some (tt, k)).
Proof.
  intros Hv Hl Hu. pose proof Hv as (Hh & Hs & _ & Hst).
  rewrite (svcRtxSemaphoreRelease_run h s k Hh Hs), (guarded_valid h s k _ Hv).
  rewrite (osRtxSemaphorePostProcess_run h s k Hs), Hst, active_not_inactive, Hl.
  split; [|split].
  - eexists. split; [reflexivity|]. split; [kred; apply lookup_insert_eq|].
    wakeups_norm. reflexivity.
  - intros Hn. apply Z.eqb_neq in Hn as Hb. rewrite Hb, (uint16_pred _ Hu Hn).
    eexists. split; [reflexivity|]. split; [kred; apply lookup_insert_eq|].
    wakeups_norm. reflexivity.
  - intros ->. reflexivity.
Qed.
End deferred_wake.

Lemma C4_witness :
  exists kp,
    osRtxSemaphorePostProcess (H := rtx5_masking) 4096
      (with_object (mk_semaphore 5 1 0 0 [idle_thread] 2 3)) = Some (tt, kp) /\
    mem kp !! 4096 = Some (mk_semaphore 5 1 0 0 [] 1 3) /\
    wakeups kp =
      wakeups (with_object (mk_semaphore 5 1 0 0 [idle_thread] 2 3)) ++ [(idle_thread, osOK)].
Proof.
  refine (proj1 (proj2 (C4_post_process_against_release (H := rtx5_masking) 4096
            (mk_semaphore 5 1 0 0 [idle_thread] 2 3) _ idle_thread [] _ _ _)) _).
  - repeat split; vm_compute; congruence.
  - reflexivity.
  - unfold uint16; cbn; lia.
  - discriminate.
Defined.

(** The transitions differ: without tokens the hook leaves the waiter where
    thread-context Release unlinks it. *)
Lemma C4_counterexample :
  ~ (forall h s k,
       valid_active (H := rtx5_masking) h s k -> thread_list s <> [] ->
       exists kp r kr,
         osRtxSemaphorePostProcess (H := rtx5_masking) h k = Some (tt, kp) /\
         svcRtxSemaphoreRelease (H := rtx5_masking) h k = Some (r, kr) /\
         mem kp !! h = mem kr !! h).
Proof.
  intros Hall.
  destruct (Hall 4096 one_waiter (with_object one_waiter)) as (kp & r & kr & Ep & Er & Em).
  - repeat split; vm_compute; congruence.
  - discriminate.
  - vm_compute in Ep. vm_compute in Er.
    injection Ep as <-. injection Er as _ <-. vm_compute in Em. discriminate.
Qed.

(** ** The wait-list invariant *)

Section invariant.
Context `{rtx_lib_h}.

Lemma perform_semaphore_run (f : M osStatus_t) k r k' :
  f k = Some (r, k') -> (f >> ret tt) k = Some (tt, k').
Proof. intros E. kred. now rewrite E. Qed.

Lemma thread_acquire_invariant h s k timeout :
  h <> NULL -> mem k !! h = Some s -> waiters_imply_no_tokens s ->
  exists r k' s',
    svcRtxSemaphoreAcquire h timeout k = Some (r, k') /\
    mem k' !! h = Some s' /\ waiters_imply_no_tokens s'.
Proof.
  intros Hh Hs Hi. rewrite (svcRtxSemaphoreAcquire_run h s k timeout Hh Hs). unfold guarded.
  destruct (obj_id s =? osRtxIdSemaphore); cbn [negb]; [|eauto 6].
  destruct (state s =? osRtxObjectInactive); [eauto 6|].
  destruct (tokens s =? 0) eqn:Et; cbn [negb].
  - apply Z.eqb_eq in Et. destruct (timeout =? 0); cbn [negb]; [eauto 6|]. cbv zeta.
    destruct (suspendable k); [|eauto 6].
    eexists _, _, _. split; [reflexivity|]. split; [kred; apply lookup_insert_eq|].
    intros _. exact Et.
  - eexists _, _, _. split; [reflexivity|]. split; [kred; apply lookup_insert_eq|].
    intros Hl. cbn in Hl. apply Hi in Hl. apply Z.eqb_neq in Et. contradiction.
Qed.

Lemma isr_acquire_invariant h s k timeout :
  h <> NULL -> mem k !! h = Some s -> waiters_imply_no_tokens s ->
  exists r k' s',
    isrRtxSemaphoreAcquire h timeout k = Some (r, k') /\
    mem k' !! h = Some s' /\ waiters_imply_no_tokens s'.
Proof.
  intros Hh Hs Hi. destruct (Z.eq_dec timeout 0) as [->|Ht].
  - rewrite (isrRtxSemaphoreAcquire_run h s k Hh Hs). unfold guarded.
    destruct (obj_id s =? osRtxIdSemaphore); cbn [negb]; [|eauto 6].
    destruct (state s =? osRtxObjectInactive); [eauto 6|].
    destruct (tokens s =? 0) eqn:Et; cbn [negb]; [eauto 6|].
    eexists _, _, _. split; [reflexivity|]. split; [kred; apply lookup_insert_eq|].
    intros Hl. cbn in Hl. apply Hi in Hl. apply Z.eqb_neq in Et. contradiction.
  - rewrite isrRtxSemaphoreAcquire_blocking by (eauto using mk_is_Some). eauto 6.
Qed.

Lemma thread_release_invariant h s k :
  h <> NULL -> mem k !! h = Some s -> waiters_imply_no_tokens s ->
  exists r k' s',
    svcRtxSemaphoreRelease h k = Some (r, k') /\
    mem k' !! h = Some s' /\ waiters_imply_no_tokens s'.
Proof.
  intros Hh Hs Hi. rewrite (svcRtxSemaphoreRelease_run h s k Hh Hs). unfold guarded.
  destruct (obj_id s =? osRtxIdSemaphore); cbn [negb]; [|eauto 6].
  destruct (state s =? osRtxObjectInactive); [eauto 6|].
  destruct (thread_list s) as [|thread rest] eqn:El.
  - destruct (tokens s <? max_tokens s); [|eauto 6].
    eexists _, _, _. split; [reflexivity|]. split; [kred; apply lookup_insert_eq|].
    intros Hl. cbn in Hl. congruence.
  - eexists _, _, _. split; [reflexivity|]. split; [kred; apply lookup_insert_eq|].
    intros _. cbn. apply Hi. rewrite El. discriminate.
Qed.

Lemma isr_release_invariant h s k :
  h <> NULL -> mem k !! h = Some s -> thread_list s = [] ->
  exists r k' s',
    isrRtxSemaphoreRelease h k = Some (r, k') /\
    mem k' !! h = Some s' /\ waiters_imply_no_tokens s'.
Proof.
  intros Hh Hs Hl. assert (Hi : waiters_imply_no_tokens s) by (intros Hn; congruence).
  rewrite (isrRtxSemaphoreRelease_run h s k Hh Hs). unfold guarded.
  destruct (obj_id s =? osRtxIdSemaphore); cbn [negb]; [|eauto 6].
  destruct (state s =? osRtxObjectInactive); [eauto 6|].
  destruct (tokens s <? max_tokens s); [|eauto 6].
  eexists _, _, _. split; [reflexivity|]. split; [kred; apply lookup_insert_eq|].
  intros Hn. cbn in Hn. congruence.
Qed.

Lemma post_process_invariant h s k :
  mem k !! h = Some s -> waiters_imply_no_tokens s ->
  osRtxSemaphorePostProcess h k = Some (tt, k).
Proof.
  intros Hs Hi. rewrite (osRtxSemaphorePostProcess_run h s k Hs).
  destruct (state s =? osRtxObjectInactive); [reflexivity|].
  destruct (thread_list s) as [|thread rest] eqn:El; [reflexivity|].
  unfold waiters_imply_no_tokens in Hi. rewrite Hi by (rewrite El; discriminate). reflexivity.
Qed.

(** An interrupt-context Release with the deferred hook after it. *)
Lemma isr_release_then_post_process h s k :
  h <> NULL -> mem k !! h = Some s -> uint16 (max_tokens s) ->
  waiters_imply_no_tokens s ->
  exists k' s',
    perform_all [IsrRelease; PostProcessing] h k = Some (tt, k') /\
    mem k' !! h = Some s' /\ waiters_imply_no_tokens s'.
Proof.
  intros Hh Hs Hu Hi. cbn [perform_all perform]. kred.
  rewrite (isrRtxSemaphoreRelease_run h s k Hh Hs). unfold guarded.
  assert (Hsame : forall e,
    exists k' s',
      match osRtxSemaphorePostProcess h (log e k) with
      | Some (_, k'0) => Some ((), k'0)
      | None => None
      end = Some (tt, k') /\ mem k' !! h = Some s' /\ waiters_imply_no_tokens s').
  { intros e. rewrite (post_process_invariant h s (log e k) Hs Hi). eauto. }
  destruct (obj_id s =? osRtxIdSemaphore); cbn [negb]; [|apply Hsame].
  destruct (state s =? osRtxObjectInactive) eqn:Est; [apply Hsame|].
  destruct (tokens s <? max_tokens s) eqn:Elt; [|apply Hsame]. cbv zeta.
  erewrite osRtxSemaphorePostProcess_run by (kred; apply lookup_insert_eq).
  cbn [state set_tokens thread_list tokens]. rewrite Est.
  destruct (thread_list s) as [|thread rest] eqn:El.
  - eexists _, _. split; [reflexivity|]. split; [kred; apply lookup_insert_eq|].
    intros Hn. cbn in Hn. congruence.
  - unfold waiters_imply_no_tokens in Hi.
    rewrite Hi by (rewrite El; discriminate). rewrite Hi in Elt by (rewrite El; discriminate).
    apply Z.ltb_lt in Elt. unfold uint16 in Hu.
    rewrite (Z.mod_small (0 + 1)) by lia. change (0 + 1 =? 0) with false. cbv iota zeta.
    eexists _, _. split; [reflexivity|]. split; [kred; apply lookup_insert_eq|].
    intros _. reflexivity.
Qed.

(** C1, as amended: "waiting threads imply [tokens = 0]" is preserved by
    thread-context Acquire and Release, by interrupt-context Acquire and by
    the post-processing hook, and by interrupt-context Release when no thread
    waits.  Interrupt-context Release followed by the hook it registers
    preserves it as well. *)
Theorem C1_invariant_preserved h s k :
  h <> NULL -> mem k !! h = Some s -> uint16 (max_tokens s) ->
  waiters_imply_no_tokens s ->
  (forall o, o <> IsrRelease \/ thread_list s = [] ->
     exists k' s',
       perform o h k = Some (tt, k') /\
       mem k' !! h = Some s' /\ waiters_imply_no_tokens s') /\
  (exists k' s',
     perform_all [IsrRelease; PostProcessing] h k = Some (tt, k') /\
     mem k' !! h = Some s' /\ waiters_imply_no_tokens s').
Proof.
  intros Hh Hs Hu Hi. split; [|now apply (isr_release_then_post_process h s k)].
  intros o Ho. destruct o as [timeout| |timeout| |]; cbn [perform].
  - destruct (thread_acquire_invariant h s k timeout Hh Hs Hi) as (r & k' & s' & E & Hr).
    exists k', s'. split; [exact (perform_semaphore_run _ _ _ _ E)|exact Hr].
  - destruct (thread_release_invariant h s k Hh Hs Hi) as (r & k' & s' & E & Hr).
    exists k', s'. split; [exact (perform_semaphore_run _ _ _ _ E)|exact Hr].
  - destruct (isr_acquire_invariant h s k timeout Hh Hs Hi) as (r & k' & s' & E & Hr).
    exists k', s'. split; [exact (perform_semaphore_run _ _ _ _ E)|exact Hr].
  - destruct Ho as [Ho|Hl]; [contradiction|].
    destruct (isr_release_invariant h s k Hh Hs Hl) as (r & k' & s' & E & Hr).
    exists k', s'. split; [exact (perform_semaphore_run _ _ _ _ E)|exact Hr].
  - exists k, s. split; [now apply (post_process_invariant h s k)|easy].
Qed.
End invariant.

Lemma C1_witness :
  exists k' s',
    perform (H := rtx5_masking) (ThreadAcquire 5) 4096 (with_object one_waiter) = Some (tt, k') /\
    mem k' !! 4096 = Some s' /\ waiters_imply_no_tokens s'.
Proof.
  refine (proj1 (C1_invariant_preserved (H := rtx5_masking) 4096 one_waiter
                   (with_object one_waiter) _ _ _ _) (ThreadAcquire 5) _).
  - discriminate.
  - reflexivity.
  - unfold uint16; cbn; lia.
  - intros _. reflexivity.
  - left. discriminate.
Defined.

(** A blocked Acquire followed by a Release from an interrupt handler leaves
    one token next to one waiting thread. *)
Lemma C1_counterexample :
  exists k s k' s',
    reachable (H := rtx5_masking) 4096 k /\
    mem k !! 4096 = Some s /\ waiters_imply_no_tokens s /\
    perform (H := rtx5_masking) IsrRelease 4096 k = Some (tt, k') /\
    reachable (H := rtx5_masking) 4096 k' /\
    mem k' !! 4096 = Some s' /\ thread_list s' = [idle_thread] /\ tokens s' = 1 /\
    ~ waiters_imply_no_tokens s'.
Proof.
  assert (R : exists k, blocked = Some (tt, k) /\ reachable (H := rtx5_masking) 4096 k).
  { eexists. split; [vm_compute; reflexivity|].
    eapply reachable_step with (o := ThreadAcquire 5).
    - eapply reachable_new with (k := boot) (max_count := 1) (initial_count := 0) (attr := None).
      + discriminate.
      + vm_compute. reflexivity.
    - vm_compute. reflexivity. }
  destruct R as (k & Ek & Rk). vm_compute in Ek. injection Ek as <-.
  eexists _, _, _, _. split; [exact Rk|].
  split; [vm_compute; reflexivity|]. split; [intros _; reflexivity|].
  split; [vm_compute; reflexivity|].
  split; [eapply reachable_step with (o := IsrRelease); [exact Rk|vm_compute; reflexivity]|].
  split; [vm_compute; reflexivity|]. split; [reflexivity|]. split; [reflexivity|].
  intros Hi. cbn in Hi. specialize (Hi ltac:(discriminate)). discriminate.
Qed.

(** ** Token bounds *)

Section bounds.
Context `{rtx_lib_h}.

(** What a non-NULL result of [svcRtxSemaphoreNew] tells. *)
Lemma svcRtxSemaphoreNew_inv max_count initial_count attr k h k0 :
  svcRtxSemaphoreNew max_count initial_count attr k = Some (h, k0) ->
  h <> NULL -> 0 <= initial_count ->
  exists s,
    valid_active h s k0 /\ tokens s = initial_count /\ max_tokens s = max_count /\
    0 < max_count <= 65535 /\ initial_count <= max_count.
Proof.
  intros E Hh Hinit. pose proof token_limit_16bit as Hlim.
  rewrite svcRtxSemaphoreNew_run in E.
  destruct ((max_count =? 0) || (max_count >? osRtxSemaphoreTokenLimit)
            || (initial_count >? max_count)) eqn:Ebad; [congruence|].
  apply (not_true_iff_false _) in Ebad. rewrite bad_arguments_spec in Ebad.
  destruct (process_attributes attr) as [[nm cb]|]; [|congruence].
  cbv zeta in E. destruct (storage attr k =? NULL); [congruence|].
  injection E as <- <-.
  eexists. split; [split; [exact Hh|split; [kred; apply lookup_insert_eq|split; reflexivity]]|].
  cbn [tokens max_tokens]. rewrite !Z.mod_small by lia. lia.
Qed.

Lemma nonblocking_step h capacity k o :
  0 <= capacity < 65536 -> within_capacity h capacity k -> nonblocking o = true ->
  exists k', perform o h k = Some (tt, k') /\ within_capacity h capacity k'.
Proof.
  intros Hc (s & Hv & Hm & Ht) Ho. pose proof Hv as (Hh & Hs & Hid & Hst).
  assert (Hput : forall v k1, mem k1 = mem k -> 0 <= v <= capacity ->
            within_capacity h capacity (put h (set_tokens v s) k1)).
  { intros v k1 Hk1 Hv'. exists (set_tokens v s).
    split; [split; [exact Hh|split; [apply lookup_insert_eq|split; assumption]]|].
    split; [exact Hm|exact Hv']. }
  assert (Hsame : forall k1, mem k1 = mem k -> within_capacity h capacity k1).
  { intros k1 Hk1. exists s. split; [|easy].
    split; [exact Hh|split; [now rewrite Hk1|split; assumption]]. }
  destruct o as [timeout| |timeout| |]; cbn [nonblocking] in Ho; try discriminate;
    try (apply Z.eqb_eq in Ho; subst timeout); cbn [perform]; kred.
  - rewrite (svcRtxSemaphoreAcquire_run h s k 0 Hh Hs), (guarded_valid h s k _ Hv).
    destruct (tokens s =? 0) eqn:Et; cbn [negb Z.eqb].
    + eexists. split; [reflexivity|]. now apply Hsame.
    + apply Z.eqb_neq in Et. cbv zeta. rewrite Z.mod_small by lia.
      eexists. split; [reflexivity|]. apply (Hput _ k); [reflexivity|lia].
  - rewrite (svcRtxSemaphoreRelease_run h s k Hh Hs), (guarded_valid h s k _ Hv).
    destruct (thread_list s) as [|thread rest] eqn:El.
    + destruct (tokens s <? max_tokens s) eqn:Et.
      * apply Z.ltb_lt in Et. cbv zeta. rewrite Z.mod_small by lia.
        eexists. split; [reflexivity|]. apply (Hput _ k); [reflexivity|lia].
      * eexists. split; [reflexivity|]. now apply Hsame.
    + cbv zeta. eexists. split; [reflexivity|].
      exists (set_thread_list rest s).
      split; [split; [exact Hh|split; [apply lookup_insert_eq|split; assumption]]|easy].
  - rewrite (isrRtxSemaphoreAcquire_run h s k Hh Hs), (guarded_valid h s k _ Hv).
    destruct (tokens s =? 0) eqn:Et; cbn [negb].
    + eexists. split; [reflexivity|]. now apply Hsame.
    + apply Z.eqb_neq in Et. cbv zeta. rewrite Z.mod_small by lia.
      eexists. split; [reflexivity|]. apply (Hput _ k); [reflexivity|lia].
  - rewrite (isrRtxSemaphoreRelease_run h s k Hh Hs), (guarded_valid h s k _ Hv).
    destruct (tokens s <? max_tokens s) eqn:Et.
    + apply Z.ltb_lt in Et. cbv zeta. rewrite Z.mod_small by lia.
      eexists. split; [reflexivity|]. apply (Hput _ k); [reflexivity|lia].
    + eexists. split; [reflexivity|]. now apply Hsame.
Qed.

Lemma nonblocking_steps h capacity calls : forall k,
  0 <= capacity < 65536 -> within_capacity h capacity k ->
  Forall (fun o => nonblocking o = true) calls ->
  exists k', perform_all calls h k = Some (tt, k') /\ within_capacity h capacity k'.
Proof.
  induction calls as [|o calls IH]; intros k Hc Hw Hall.
  - exists k. split; [reflexivity|exact Hw].
  - inversion Hall as [|? ? Ho Hrest]; subst.
    destruct (nonblocking_step h capacity k o Hc Hw Ho) as (k1 & E1 & Hw1).
    destruct (IH k1 Hc Hw1 Hrest) as (k' & E' & Hw').
    exists k'. split; [|exact Hw']. cbn [perform_all]. kred. now rewrite E1.
Qed.

(** C6: after [svcRtxSemaphoreNew] created a semaphore of capacity
    [max_count], every finite sequence of Release calls and of Acquire calls
    with timeout 0, from thread or interrupt context, runs to its end and
    leaves [0 <= tokens <= max_count].  The atomic decrement takes a token
    only when [tokens > 0] and the atomic increment adds one only when
    [tokens < max_tokens]; a failed step changes nothing. *)
Theorem C6_tokens_within_capacity :
  (forall max_count initial_count attr k h k0 calls,
     svcRtxSemaphoreNew max_count initial_count attr k = Some (h, k0) ->
     h <> NULL -> 0 <= initial_count ->
     Forall (fun o => nonblocking o = true) calls ->
     exists k' s,
       perform_all calls h k0 = Some (tt, k') /\
       mem k' !! h = Some s /\ max_tokens s = max_count /\ 0 <= tokens s <= max_count) /\
  (forall h s k, mem k !! h = Some s -> uint16 (tokens s) -> uint16 (max_tokens s) ->
     (exists r k', SemaphoreTokenDecrement h k = Some (r, k') /\
        (r <> 0 -> 0 < tokens s /\ k' = put h (set_tokens (tokens s - 1) s) k) /\
        (r = 0 -> tokens s = 0 /\ k' = k)) /\
     (exists r k', SemaphoreTokenIncrement h k = Some (r, k') /\
        (r <> 0 -> tokens s < max_tokens s /\ k' = put h (set_tokens (tokens s + 1) s) k) /\
        (r = 0 -> max_tokens s <= tokens s /\ k' = k))).
Proof.
  split.
  - intros max_count initial_count attr k h k0 calls E Hh Hinit Hall.
    destruct (svcRtxSemaphoreNew_inv _ _ _ _ _ _ E Hh Hinit) as (s0 & Hv & Ht & Hm & Hmax & Hle).
    destruct (nonblocking_steps h max_count calls k0) as (k' & E' & s & Hv' & Hm' & Ht');
      [lia|exists s0; split; [exact Hv|split; [exact Hm|lia]]|exact Hall|].
    exists k', s. split; [exact E'|]. split; [apply Hv'|easy].
  - intros h s k Hs Ht Hm. unfold uint16 in *.
    rewrite (SemaphoreTokenDecrement_run h s k Hs), (SemaphoreTokenIncrement_run h s k Hs).
    split.
    + destruct (tokens s =? 0) eqn:E; eexists _, _; (split; [reflexivity|]).
      * apply Z.eqb_eq in E. split; [congruence|easy].
      * apply Z.eqb_neq in E. split; [|congruence]. intros _.
        rewrite Z.mod_small by lia. split; [lia|reflexivity].
    + destruct (tokens s <? max_tokens s) eqn:E; eexists _, _; (split; [reflexivity|]).
      * apply Z.ltb_lt in E. split; [|congruence]. intros _.
        rewrite Z.mod_small by lia. split; [lia|reflexivity].
      * apply Z.ltb_ge in E. split; [congruence|easy].
Qed.
End bounds.

Lemma C6_witness :
  exists k' s,
    (let! h := svcRtxSemaphoreNew (H := rtx5_exclusive) 2 1 None in
     perform_all (H := rtx5_exclusive)
       [ThreadRelease; IsrRelease; ThreadRelease; IsrAcquire 0; ThreadAcquire 0;
        ThreadAcquire 0; IsrAcquire 0] h) boot = Some (tt, k') /\
    mem k' !! 4096 = Some s /\ max_tokens s = 2 /\ 0 <= tokens s <= 2.
Proof.
  destruct (proj1 (C6_tokens_within_capacity (H := rtx5_exclusive)) 2 1 None boot 4096
              (match svcRtxSemaphoreNew (H := rtx5_exclusive) 2 1 None boot with
               | Some (_, k0) => k0
               | None => boot
               end)
              [ThreadRelease; IsrRelease; ThreadRelease; IsrAcquire 0; ThreadAcquire 0;
               ThreadAcquire 0; IsrAcquire 0])
    as (k' & s & E & Hs).
  - vm_compute. reflexivity.
  - discriminate.
  - lia.
  - repeat constructor.
  - exists k', s. split; [|exact Hs]. rewrite <- E. vm_compute. reflexivity.
Defined.

(** ** Deletion *)

Section deletion.
Context `{rtx_lib_h}.

Lemma wake_all_calls h s m l :
  map fst (wake_all h s m l) = map (fun thread => ThreadWaitExit thread osErrorResource false) l.
Proof. induction l as [|t rest IH]; [reflexivity|]. cbn. now rewrite IH. Qed.

Lemma wake_all_observe h s m l :
  Forall (fun e => exists s1, snd e !! h = Some s1 /\ state s1 = state s /\
                     exists n, thread_list s1 = drop n l)
         (wake_all h s m l).
Proof.
  induction l as [|t rest IH]; [constructor|]. cbn [wake_all]. constructor.
  - cbn [snd]. exists (set_thread_list rest s). rewrite lookup_insert_eq.
    split; [reflexivity|]. split; [reflexivity|]. exists 1%nat. reflexivity.
  - eapply Forall_impl; [exact IH|]. cbn beta. intros e (s1 & Hs1 & Hst & n & Hn).
    exists s1. split; [exact Hs1|]. split; [exact Hst|]. exists (S n). exact Hn.
Qed.

(** C7: [svcRtxSemaphoreDelete] on a valid Active semaphore returns Ok and
    calls, in this order: the scheduler once for every waiting thread, head
    first, with result ResourceUnavailable, each call seeing the object
    already Inactive; the dispatcher if a thread waited; the allocator's
    free, only for a system object and with the wait list empty; the event
    recorder.  On an Inactive object it returns ResourceUnavailable and only
    the event recorder is called. *)
Theorem C7_delete_order h s k :
  h <> NULL -> mem k !! h = Some s -> obj_id s = osRtxIdSemaphore ->
  (state s = osRtxObjectActive ->
   let s0 := set_state osRtxObjectInactive s in
   let final := <[h := set_thread_list [] s0]> (mem k) in
   let wakes := wake_all h s0 (mem k) (thread_list s) in
   exists k',
     svcRtxSemaphoreDelete h k = Some (osOK, k') /\
     mem k' = final /\
     trace k' =
       trace k ++ wakes
         ++ match thread_list s with [] => [] | _ :: _ => [(ThreadDispatch, final)] end
         ++ (if system_object s then [(free_call h k, final)] else [])
         ++ [(EvrRtxSemaphoreDestroyed h, final)] /\
     map fst wakes =
       map (fun thread => ThreadWaitExit thread osErrorResource false) (thread_list s) /\
     Forall (fun e => exists s1, snd e !! h = Some s1 /\ state s1 = osRtxObjectInactive)
            wakes) /\
  (state s = osRtxObjectInactive ->
   svcRtxSemaphoreDelete h k =
     Some (osErrorResource, log (EvrRtxSemaphoreError h (evr_status osErrorResource)) k)).
Proof.
  intros Hh Hs Hid. rewrite (svcRtxSemaphoreDelete_run h s k Hh Hs). split.
  - intros Hst. rewrite (guarded_valid h s k) by (repeat split; assumption).
    cbv zeta. eexists. split; [reflexivity|].
    split; [|split; [|split]].
    + unfold free_block.
      destruct (system_object s), (thread_list s), (mpi_semaphore k) eqn:Em;
        kopen k; cbn in Em; rewrite ?Em; reflexivity.
    + unfold free_block, free_call.
      destruct (system_object s), (thread_list s) as [|t rest], (mpi_semaphore k) eqn:Em;
        kopen k; cbn in Em; rewrite ?Em; cbn [wake_all app];
        rewrite <- ?app_assoc; reflexivity.
    + apply wake_all_calls.
    + eapply Forall_impl; [apply wake_all_observe|]. cbn beta.
      intros e (s1 & Hs1 & Hst1 & _). eauto.
  - intros Hst. now apply guarded_inactive.
Qed.
End deletion.

Lemma C7_witness :
  exists k',
    svcRtxSemaphoreDelete (H := rtx5_masking) 4096 (with_object system_waiters) =
      Some (osOK, k') /\
    map fst (trace k') =
      [ThreadWaitExit high_first osErrorResource false;
       ThreadWaitExit high_second osErrorResource false;
       ThreadWaitExit low osErrorResource false;
       ThreadDispatch; MemoryPoolFree 4096; EvrRtxSemaphoreDestroyed 4096].
Proof.
  destruct (proj1 (C7_delete_order (H := rtx5_masking) 4096 system_waiters
                     (with_object system_waiters) ltac:(discriminate) ltac:(reflexivity)
                     ltac:(reflexivity)) ltac:(reflexivity))
    as (k' & E & _ & Et & _).
  exists k'. split; [exact E|]. rewrite Et. reflexivity.
Defined.

(** * Further properties *)

(** ** Counting calls in the trace *)

Lemma suspensions_log_request thread why timeout k :
  suspensions (log (ThreadWaitEnter thread why timeout) k) =
    suspensions k ++ [(ThreadWaitEnter thread why timeout, mem k)].
Proof.
  unfold suspensions. cbn [log set_trace trace]. rewrite filter_app.
  cbn [filter list_filter]. now rewrite decide_True by reflexivity.
Qed.

Lemma suspensions_put h s k : suspensions (put h s k) = suspensions k.
Proof. reflexivity. Qed.

Lemma count_log (f : event * gmap Z os_semaphore_t -> bool) e k :
  Z.of_nat (length (filter (fun x => f x = true) (trace (log e k)))) =
    Z.of_nat (length (filter (fun x => f x = true) (trace k)))
    + (if f (e, mem k) then 1 else 0).
Proof.
  cbn [log set_trace trace]. rewrite filter_app, length_app, Nat2Z.inj_add.
  cbn [filter list_filter]. destruct (f (e, mem k)).
  - now rewrite decide_True by reflexivity.
  - now rewrite decide_False by discriminate.
Qed.

Lemma grants_log h e k :
  grants h (log e k) = grants h k + (if is_grant h (e, mem k) then 1 else 0).
Proof. apply (count_log (is_grant h)). Qed.

Lemma releases_log h e k :
  releases h (log e k) = releases h k + (if is_release h (e, mem k) then 1 else 0).
Proof. apply (count_log (is_release h)). Qed.

Lemma registrations_log h e k :
  registrations h (log e k) =
    registrations h k + (if is_registration h (e, mem k) then 1 else 0).
Proof. apply (count_log (is_registration h)). Qed.

Lemma grants_put h h' s k : grants h (put h' s k) = grants h k.
Proof. reflexivity. Qed.

Lemma releases_put h h' s k : releases h (put h' s k) = releases h k.
Proof. reflexivity. Qed.

Lemma registrations_put h h' s k : registrations h (put h' s k) = registrations h k.
Proof. reflexivity. Qed.

Ltac count_simpl :=
  repeat (rewrite ?grants_log, ?releases_log, ?registrations_log,
            ?grants_put, ?releases_put, ?registrations_put;
          cbn [is_grant is_release is_registration fst]);
  rewrite ?Z.eqb_refl.

Ltac wakeups_simpl :=
  repeat (rewrite ?wakeups_log, ?wakeups_put; cbn [wakeup fst]);
  rewrite ?app_nil_r, <- ?app_assoc.

Section token_counter.

Lemma SemaphoreTokenDecrement_unmapped `{rtx_lib_h} h k :
  mem k !! h = None -> SemaphoreTokenDecrement h k = None.
Proof.
  intros Hs. kopen k.
  unfold SemaphoreTokenDecrement, atomic_dec16_nz, __get_PRIMASK, __disable_irq, __enable_irq.
  destruct (EXCLUSIVE_ACCESS =? 0); kred; now rewrite Hs.
Qed.

Lemma SemaphoreTokenIncrement_unmapped `{rtx_lib_h} h k :
  mem k !! h = None -> SemaphoreTokenIncrement h k = None.
Proof.
  intros Hs. kopen k.
  unfold SemaphoreTokenIncrement, atomic_inc16_lt, __get_PRIMASK, __disable_irq, __enable_irq.
  destruct (EXCLUSIVE_ACCESS =? 0); kred; now rewrite Hs.
Qed.

(** X1: the two build strategies of the token counter, interrupt masking and
    exclusive access, compute the same result and the same kernel state, for
    every handle and every state, the unmapped handle included. *)
Theorem X1_token_counter_strategies_agree (H1 H2 : rtx_lib_h) h k :
  SemaphoreTokenDecrement (H := H1) h k = SemaphoreTokenDecrement (H := H2) h k /\
  SemaphoreTokenIncrement (H := H1) h k = SemaphoreTokenIncrement (H := H2) h k.
Proof.
  destruct (mem k !! h) as [s|] eqn:Hs.
  - now rewrite !(SemaphoreTokenDecrement_run h s k Hs), !(SemaphoreTokenIncrement_run h s k Hs).
  - now rewrite !SemaphoreTokenDecrement_unmapped, !SemaphoreTokenIncrement_unmapped.
Qed.

Context `{rtx_lib_h}.

(** X2: a step of the token counter returns 0 or 1, leaves the interrupt
    mask as it found it (masked stays masked), calls nobody, touches no
    other object, and changes nothing at all when it returns 0. *)
Theorem X2_token_counter_restores_mask h k r k' :
  SemaphoreTokenDecrement h k = Some (r, k') \/ SemaphoreTokenIncrement h k = Some (r, k') ->
  (r = 0 \/ r = 1) /\ (r = 0 -> k' = k) /\
  PRIMASK k' = PRIMASK k /\ IPSR k' = IPSR k /\ trace k' = trace k /\
  forall h', h' <> h -> mem k' !! h' = mem k !! h'.
Proof.
  intros E. destruct (mem k !! h) as [s|] eqn:Hs.
  - rewrite (SemaphoreTokenDecrement_run h s k Hs), (SemaphoreTokenIncrement_run h s k Hs) in E.
    destruct E as [E|E];
      [destruct (tokens s =? 0)|destruct (tokens s <? max_tokens s)];
      injection E as <- <-;
      (split; [auto|]); (split; [intros; try discriminate; reflexivity|]);
      repeat split; intros h' Hne; kred; now rewrite ?lookup_insert_ne by congruence.
  - rewrite SemaphoreTokenDecrement_unmapped, SemaphoreTokenIncrement_unmapped in E by exact Hs.
    destruct E; discriminate.
Qed.
End token_counter.

Lemma X2_witness :
  PRIMASK (put 4096 (mk_semaphore 5 1 0 0 [] 1 3)
             (set_PRIMASK true (with_object two_tokens))) = true.
Proof.
  refine (proj1 (proj2 (proj2 (X2_token_counter_restores_mask (H := rtx5_masking) 4096
            (set_PRIMASK true (with_object two_tokens)) 1 _ _)))).
  left. vm_compute. reflexivity.
Defined.

Section handles.
Context `{rtx_lib_h}.

Lemma guarded_foreign h s k body :
  obj_id s <> osRtxIdSemaphore ->
  guarded h s k body =
    Some (osErrorParameter, log (EvrRtxSemaphoreError h (evr_status osErrorParameter)) k).
Proof. intros Hid. unfold guarded. apply Z.eqb_neq in Hid. now rewrite Hid. Qed.

Lemma isrRtxSemaphoreAcquire_foreign h s k timeout :
  h <> NULL -> mem k !! h = Some s -> obj_id s <> osRtxIdSemaphore ->
  isrRtxSemaphoreAcquire h timeout k =
    Some (osErrorParameter, log (EvrRtxSemaphoreError h (evr_status osErrorParameter)) k).
Proof.
  intros Hh Hs Hid. unfold isrRtxSemaphoreAcquire. kred.
  rewrite (not_a_semaphore_run h s k Hh Hs). apply Z.eqb_neq in Hid. now rewrite Hid.
Qed.

(** X3: a NULL handle, and a handle to an object whose identifier is not the
    semaphore's, get a parameter error from Acquire, Release and Delete, in
    the service calls and in the ISR variants alike, and 0 from GetCount;
    nothing but the event recorder is called and no object changes. *)
Theorem X3_invalid_handle_is_parameter_error h k :
  h = NULL \/ (exists s, mem k !! h = Some s /\ obj_id s <> osRtxIdSemaphore) ->
  let failed :=
    Some (osErrorParameter, log (EvrRtxSemaphoreError h (evr_status osErrorParameter)) k) in
  (forall timeout,
     svcRtxSemaphoreAcquire h timeout k = failed /\
     isrRtxSemaphoreAcquire h timeout k = failed) /\
  svcRtxSemaphoreRelease h k = failed /\
  isrRtxSemaphoreRelease h k = failed /\
  svcRtxSemaphoreDelete h k = failed /\
  svcRtxSemaphoreGetCount h k = Some (0, log (EvrRtxSemaphoreGetCount h 0) k).
Proof.
  intros [->|(s & Hs & Hid)]; cbv zeta.
  - repeat split; reflexivity.
  - destruct (Z.eq_dec h NULL) as [->|Hh]; [repeat split; reflexivity|].
    rewrite (svcRtxSemaphoreRelease_run h s k Hh Hs), (isrRtxSemaphoreRelease_run h s k Hh Hs),
      (svcRtxSemaphoreDelete_run h s k Hh Hs), (svcRtxSemaphoreGetCount_run h s k Hh Hs),
      !guarded_foreign by exact Hid.
    split; [|repeat split].
    + intros timeout.
      rewrite (svcRtxSemaphoreAcquire_run h s k timeout Hh Hs), guarded_foreign by exact Hid.
      split; [reflexivity|now apply (isrRtxSemaphoreAcquire_foreign h s)].
    + apply Z.eqb_neq in Hid. now rewrite Hid.
Qed.

(** X4: after Delete of a semaphore in caller-supplied storage, every later
    call on the same handle fails and changes no object.  The service-call
    Acquire with any timeout, Release, a second Delete, the ISR Release and
    the ISR Acquire with timeout 0 fail with a resource error; the ISR
    Acquire with a non-zero timeout fails with a parameter error, its
    timeout check coming before the state check.  GetCount returns 0 and the
    post-processing hook does nothing. *)
Theorem X4_deleted_handle_fails h s k :
  valid_active h s k -> system_object s = false ->
  exists k',
    svcRtxSemaphoreDelete h k = Some (osOK, k') /\
    let failed :=
      Some (osErrorResource, log (EvrRtxSemaphoreError h (evr_status osErrorResource)) k') in
    (forall timeout, svcRtxSemaphoreAcquire h timeout k' = failed) /\
    isrRtxSemaphoreAcquire h 0 k' = failed /\
    (forall timeout, timeout <> 0 ->
       isrRtxSemaphoreAcquire h timeout k' =
         Some (osErrorParameter,
               log (EvrRtxSemaphoreError h (evr_status osErrorParameter)) k')) /\
    svcRtxSemaphoreRelease h k' = failed /\
    isrRtxSemaphoreRelease h k' = failed /\
    svcRtxSemaphoreDelete h k' = failed /\
    svcRtxSemaphoreGetCount h k' = Some (0, log (EvrRtxSemaphoreGetCount h 0) k') /\
    osRtxSemaphorePostProcess h k' = Some (tt, k').
Proof.
  intros Hv Hsys. pose proof Hv as (Hh & Hs & Hid & Hst).
  rewrite (svcRtxSemaphoreDelete_run h s k Hh Hs), (guarded_valid h s k _ Hv), Hsys.
  cbv zeta. eexists. split; [reflexivity|].
  set (s' := set_thread_list [] (set_state osRtxObjectInactive s)).
  match goal with |- context [log (EvrRtxSemaphoreDestroyed h) ?k2] =>
    set (k' := log (EvrRtxSemaphoreDestroyed h) k2) end.
  assert (Hs' : mem k' !! h = Some s').
  { subst k'. destruct (thread_list s); kred; apply lookup_insert_eq. }
  clearbody k'.
  rewrite (isrRtxSemaphoreAcquire_run h s' k' Hh Hs'),
    (svcRtxSemaphoreRelease_run h s' k' Hh Hs'), (isrRtxSemaphoreRelease_run h s' k' Hh Hs'),
    (svcRtxSemaphoreDelete_run h s' k' Hh Hs'), (svcRtxSemaphoreGetCount_run h s' k' Hh Hs'),
    (osRtxSemaphorePostProcess_run h s' k' Hs'), !guarded_inactive by (assumption || reflexivity).
  split; [|split; [reflexivity|split; [|repeat split]]].
  - intros timeout.
    now rewrite (svcRtxSemaphoreAcquire_run h s' k' timeout Hh Hs'), guarded_inactive.
  - intros timeout Hto. apply isrRtxSemaphoreAcquire_blocking; [exact Hto|].
    right. eexists. exact Hs'.
  - subst s'. cbn [state obj_id set_thread_list set_state]. now rewrite Z.eqb_refl, orb_true_r.
  - subst s'. cbn [state set_thread_list set_state]. now rewrite Z.eqb_refl.
Qed.
End handles.

Lemma X3_witness :
  svcRtxSemaphoreRelease (H := rtx5_masking) 4096 (with_object timer_object) =
    Some (osErrorParameter,
          log (EvrRtxSemaphoreError 4096 (evr_status osErrorParameter))
            (with_object timer_object)).
Proof.
  refine (proj1 (proj2 (X3_invalid_handle_is_parameter_error (H := rtx5_masking) 4096
                          (with_object timer_object) _))).
  right. exists timer_object. split; [reflexivity|discriminate].
Defined.

Lemma X4_witness :
  exists k',
    svcRtxSemaphoreDelete (H := rtx5_exclusive) 4096 (with_object three_waiters) =
      Some (osOK, k') /\
    isrRtxSemaphoreAcquire (H := rtx5_exclusive) 4096 0 k' =
      Some (osErrorResource,
            log (EvrRtxSemaphoreError 4096 (evr_status osErrorResource)) k') /\
    isrRtxSemaphoreAcquire (H := rtx5_exclusive) 4096 5 k' =
      Some (osErrorParameter,
            log (EvrRtxSemaphoreError 4096 (evr_status osErrorParameter)) k') /\
    svcRtxSemaphoreRelease (H := rtx5_exclusive) 4096 k' =
      Some (osErrorResource,
            log (EvrRtxSemaphoreError 4096 (evr_status osErrorResource)) k').
Proof.
  destruct (X4_deleted_handle_fails (H := rtx5_exclusive) 4096 three_waiters
              (with_object three_waiters)) as (k' & E & _ & Ea & Eb & Er & _).
  - repeat split; vm_compute; congruence.
  - reflexivity.
  - exists k'. split; [exact E|]. split; [exact Ea|].
    split; [apply Eb; discriminate|exact Er].
Defined.

Section creation_more.
Context `{rtx_lib_h}.

Lemma take_block_rest k :
  post_process_semaphore (take_block k) = post_process_semaphore k /\
  kernel_tick (take_block k) = kernel_tick k.
Proof.
  unfold take_block. destruct (mpi_semaphore k) as [[|? ?]|]; [easy|easy|].
  now destruct (mem_common k).
Qed.

(** X5: when [svcRtxSemaphoreNew] returns NULL it has written no object and
    has not registered the post-processing function; it has made one call to
    the event recorder, with a parameter, control-block or no-memory code. *)
Theorem X5_new_failure_creates_nothing max_count initial_count attr k k' :
  svcRtxSemaphoreNew max_count initial_count attr k = Some (NULL, k') ->
  mem k' = mem k /\ post_process_semaphore k' = post_process_semaphore k /\
  exists code,
    trace k' = trace k ++ [(EvrRtxSemaphoreError NULL code, mem k)] /\
    (code = evr_status osErrorParameter \/ code = osRtxErrorInvalidControlBlock \/
     code = evr_status osErrorNoMemory).
Proof.
  rewrite svcRtxSemaphoreNew_run. intros E.
  destruct ((max_count =? 0) || (max_count >? osRtxSemaphoreTokenLimit)
            || (initial_count >? max_count)).
  { injection E as <-. repeat split. eauto. }
  destruct (process_attributes attr) as [[nm cb]|].
  2: { injection E as <-. repeat split. eauto. }
  cbv zeta in E. destruct (storage attr k =? NULL) eqn:Eh.
  - injection E as <-.
    destruct (take_block_frame k) as (Hm & _ & _ & Ht), (take_block_rest k) as (Hp & _).
    destruct (cb =? NULL); kred; rewrite ?Hm, ?Ht, ?Hp; repeat split; eauto.
  - apply Z.eqb_neq in Eh. congruence.
Qed.

Lemma land_3_mod_4 x : Z.land x 3 = x mod 4.
Proof. exact (Z.land_ones x 2 ltac:(lia)). Qed.

Lemma process_attributes_none a :
  process_attributes (Some a) = None <->
  (cb_mem a <> NULL /\ (cb_mem a mod 4 <> 0 \/ cb_size a < sizeof_os_semaphore_t)) \/
  (cb_mem a = NULL /\ cb_size a <> 0).
Proof.
  unfold process_attributes. rewrite land_3_mod_4.
  destruct (cb_mem a =? NULL) eqn:Ec; cbn [negb].
  - apply Z.eqb_eq in Ec. destruct (cb_size a =? 0) eqn:Es; cbn [negb].
    + apply Z.eqb_eq in Es. split; [discriminate|]. intros [[Hn _]|[_ Hn]]; contradiction.
    + apply Z.eqb_neq in Es. split; [auto|reflexivity].
  - apply Z.eqb_neq in Ec.
    destruct (cb_mem a mod 4 =? 0) eqn:Em; cbn [negb orb].
    + apply Z.eqb_eq in Em. destruct (cb_size a <? sizeof_os_semaphore_t) eqn:Es.
      * apply Z.ltb_lt in Es. split; [auto|reflexivity].
      * apply Z.ltb_ge in Es. split; [discriminate|].
        intros [[_ [Hn|Hn]]|[Hn _]]; [contradiction|lia|contradiction].
    + apply Z.eqb_neq in Em. split; [auto|reflexivity].
Qed.

(** X6: with valid counts, [svcRtxSemaphoreNew] reports an invalid control
    block exactly when the caller's block is not 4-byte aligned or smaller
    than a control block, or when a size is given without a block. *)
Theorem X6_new_rejects_bad_control_block max_count initial_count a k :
  0 < max_count <= osRtxSemaphoreTokenLimit -> initial_count <= max_count ->
  (svcRtxSemaphoreNew max_count initial_count (Some a) k =
     Some (NULL, log (EvrRtxSemaphoreError NULL osRtxErrorInvalidControlBlock) k)
   <-> (cb_mem a <> NULL /\ (cb_mem a mod 4 <> 0 \/ cb_size a < sizeof_os_semaphore_t)) \/
       (cb_mem a = NULL /\ cb_size a <> 0)).
Proof.
  intros Hmax Hinit. rewrite <- process_attributes_none, svcRtxSemaphoreNew_run.
  replace ((max_count =? 0) || (max_count >? osRtxSemaphoreTokenLimit)
           || (initial_count >? max_count)) with false.
  2: { symmetry. apply not_true_iff_false. rewrite bad_arguments_spec. lia. }
  destruct (process_attributes (Some a)) as [[nm cb]|] eqn:Ep; [|easy].
  split; [|discriminate]. intros E. exfalso. cbv zeta in E.
  destruct (storage (Some a) k =? NULL) eqn:Eh.
  - apply log_inj in E; [discriminate|].
    destruct (cb =? NULL); [apply take_block_frame|reflexivity].
  - apply Z.eqb_neq in Eh. congruence.
Qed.

Lemma process_attributes_some attr nm cb :
  process_attributes attr = Some (nm, cb) ->
  nm = supplied_name attr /\ cb = supplied_block attr.
Proof.
  unfold process_attributes. destruct attr as [a|]; cbn.
  - repeat match goal with |- context [if ?b then _ else _] => destruct b end;
      intros E; try discriminate; now injection E as <- <-.
  - now intros E; injection E as <- <-.
Qed.

(** The object behind a handle returned by [svcRtxSemaphoreNew], and where
    its block came from. *)
Lemma svcRtxSemaphoreNew_object max_count initial_count attr k h k' :
  svcRtxSemaphoreNew max_count initial_count attr k = Some (h, k') -> h <> NULL ->
  exists s,
    mem k' !! h = Some s /\ name s = supplied_name attr /\ thread_list s = [] /\
    (supplied_block attr <> NULL ->
       h = supplied_block attr /\ flags s = 0 /\
       mpi_semaphore k' = mpi_semaphore k /\ mem_common k' = mem_common k) /\
    (supplied_block attr = NULL ->
       h = next_block k /\ flags s = osRtxFlagSystemObject /\
       mpi_semaphore k' = mpi_semaphore (take_block k) /\
       mem_common k' = mem_common (take_block k)).
Proof.
  rewrite svcRtxSemaphoreNew_run. intros E Hh.
  destruct ((max_count =? 0) || (max_count >? osRtxSemaphoreTokenLimit)
            || (initial_count >? max_count)); [congruence|].
  unfold storage in E.
  destruct (process_attributes attr) as [[nm cb]|] eqn:Ep; [|congruence].
  apply process_attributes_some in Ep as [-> ->]. cbv zeta in E.
  destruct (supplied_block attr =? NULL) eqn:Ec.
  - apply Z.eqb_eq in Ec. destruct (next_block k =? NULL); [congruence|].
    injection E as <- <-. eexists. split; [kred; apply lookup_insert_eq|].
    cbn [name thread_list flags]. repeat split; congruence.
  - apply Z.eqb_neq in Ec. destruct (supplied_block attr =? NULL); [congruence|].
    injection E as <- <-. eexists. split; [kred; apply lookup_insert_eq|].
    cbn [name thread_list flags]. repeat split; congruence.
Qed.

(** X7: a handle returned by [svcRtxSemaphoreNew] names an object with the
    caller's name and an empty wait list; every other object is as before
    and the post-processing function is registered.  In the caller's block
    the object is not a system object and the allocator is left alone;
    without one the block is the allocator's next and the object carries the
    system-object flag. *)
Theorem X7_new_ownership max_count initial_count attr k h k' :
  svcRtxSemaphoreNew max_count initial_count attr k = Some (h, k') -> h <> NULL ->
  exists s,
    mem k' !! h = Some s /\ name s = supplied_name attr /\ thread_list s = [] /\
    (forall h', h' <> h -> mem k' !! h' = mem k !! h') /\
    post_process_semaphore k' = true /\
    (supplied_block attr <> NULL ->
       h = supplied_block attr /\ flags s = 0 /\
       mpi_semaphore k' = mpi_semaphore k /\ mem_common k' = mem_common k) /\
    (supplied_block attr = NULL ->
       h = next_block k /\ flags s = osRtxFlagSystemObject /\
       mpi_semaphore k' = mpi_semaphore (take_block k) /\
       mem_common k' = mem_common (take_block k)).
Proof.
  intros E Hh.
  destruct (svcRtxSemaphoreNew_object _ _ _ _ _ _ E Hh) as (s & Hs & Hn & Hl & Hown & Hsys).
  assert (Hrest : (forall h', h' <> h -> mem k' !! h' = mem k !! h') /\
                  post_process_semaphore k' = true).
  { clear - E Hh. rewrite svcRtxSemaphoreNew_run in E.
    destruct ((max_count =? 0) || (max_count >? osRtxSemaphoreTokenLimit)
              || (initial_count >? max_count)); [congruence|].
    destruct (process_attributes attr) as [[nm cb]|]; [|congruence].
    cbv zeta in E. destruct (storage attr k =? NULL); [congruence|].
    injection E as E <-. rewrite E. split; [|reflexivity].
    intros h' Hne. kred. rewrite lookup_insert_ne by congruence.
    destruct (cb =? NULL); [now rewrite (proj1 (take_block_frame k))|reflexivity]. }
  exists s. tauto.
Qed.

Lemma free_block_take_block h k k1 :
  next_block k = h -> h <> NULL ->
  mpi_semaphore k1 = mpi_semaphore (take_block k) ->
  mem_common k1 = mem_common (take_block k) ->
  mpi_semaphore (free_block h k1) = mpi_semaphore k /\
  mem_common (free_block h k1) = mem_common k.
Proof.
  unfold next_block, take_block, free_block. intros Hn Hh.
  destruct (mpi_semaphore k) as [[|b rest]|] eqn:Ek.
  - congruence.
  - cbn. intros Hp Hc. rewrite Hp. cbn. rewrite Hc. split; congruence.
  - destruct (mem_common k) as [|b rest] eqn:Ec; [congruence|].
    cbn. rewrite Ek. intros Hp Hc. rewrite Hp. cbn. rewrite Hc. split; congruence.
Qed.

Lemma free_call_take_block h k k1 :
  mpi_semaphore k1 = mpi_semaphore (take_block k) -> free_call h k1 = free_call h k.
Proof.
  unfold free_call, take_block. intros ->.
  destruct (mpi_semaphore k) as [[|b rest]|] eqn:Ek; cbn; rewrite ?Ek; try reflexivity.
  destruct (mem_common k); cbn; now rewrite Ek.
Qed.

(** X8: Delete right after New.  An object in the caller's block is never
    handed to the allocator: no free call, free lists as they were.  An
    object the kernel allocated goes back by one free call, after which the
    free lists are what they were before New. *)
Theorem X8_new_then_delete max_count initial_count attr k h k1 :
  svcRtxSemaphoreNew max_count initial_count attr k = Some (h, k1) -> h <> NULL ->
  0 <= initial_count ->
  exists k2,
    svcRtxSemaphoreDelete h k1 = Some (osOK, k2) /\
    (supplied_block attr <> NULL ->
       trace k2 = trace k1 ++ [(EvrRtxSemaphoreDestroyed h, mem k2)] /\
       mpi_semaphore k2 = mpi_semaphore k /\ mem_common k2 = mem_common k) /\
    (supplied_block attr = NULL -> osRtxFlagSystemObject <> 0 ->
       trace k2 = trace k1 ++ [(free_call h k, mem k2); (EvrRtxSemaphoreDestroyed h, mem k2)] /\
       mpi_semaphore k2 = mpi_semaphore k /\ mem_common k2 = mem_common k).
Proof.
  intros E Hh Hinit.
  destruct (svcRtxSemaphoreNew_object _ _ _ _ _ _ E Hh)
    as (s & Hs & _ & Hl & Hown & Hsys).
  destruct (svcRtxSemaphoreNew_inv _ _ _ _ _ _ E Hh Hinit) as (s' & Hv & _).
  assert (s' = s) by (destruct Hv as (_ & Hs' & _); congruence). subst s'.
  rewrite (svcRtxSemaphoreDelete_run h s k1 Hh Hs), (guarded_valid h s k1 _ Hv), Hl.
  cbv zeta. cbn [wake_all]. eexists. split; [reflexivity|]. split.
  - intros Hb. destruct (Hown Hb) as (_ & Hf & Hp & Hc).
    unfold system_object. rewrite Hf, Z.land_0_l. cbn [Z.eqb negb].
    kred. rewrite app_nil_r. repeat split; assumption.
  - intros Hb Hflag. destruct (Hsys Hb) as (Hn & Hf & Hp & Hc).
    unfold system_object. rewrite Hf, Z.land_diag.
    apply Z.eqb_neq in Hflag as Hfb. rewrite Hfb. cbn [negb].
    match goal with |- context [free_block h ?k0] => set (k0' := k0) end.
    destruct (free_block_take_block h k k0' (eq_sym Hn) Hh Hp Hc) as (Hp' & Hc').
    rewrite <- (free_call_take_block h k k0' Hp).
    split; [|split; [exact Hp'|exact Hc']].
    subst k0'. unfold free_block, free_call. cbn [log put set_trace set_mem mpi_semaphore].
    destruct (mpi_semaphore k1); kred; rewrite app_nil_r, <- app_assoc; reflexivity.
Qed.
End creation_more.

Lemma X5_witness :
  mem (log (EvrRtxSemaphoreError NULL (evr_status osErrorParameter)) boot) = mem boot.
Proof.
  refine (proj1 (X5_new_failure_creates_nothing (H := rtx5_masking) 0 0 None boot _ _)).
  reflexivity.
Defined.

Lemma X6_witness :
  svcRtxSemaphoreNew (H := rtx5_masking) 3 2 (Some (mk_attr 0 0 8194 16)) boot =
    Some (NULL, log (EvrRtxSemaphoreError NULL osRtxErrorInvalidControlBlock) boot).
Proof.
  refine (proj2 (X6_new_rejects_bad_control_block (H := rtx5_masking) 3 2
                   (mk_attr 0 0 8194 16) boot _ _) _).
  - cbn; lia.
  - lia.
  - left. split; [discriminate|]. left. discriminate.
Defined.

Lemma X7_witness :
  exists s,
    mem (match svcRtxSemaphoreNew (H := rtx5_masking) 3 2 (Some named) boot with
         | Some (_, k') => k'
         | None => boot
         end) !! 4096 = Some s /\
    name s = 777 /\ flags s = 1.
Proof.
  destruct (X7_new_ownership (H := rtx5_masking) 3 2 (Some named) boot 4096
              (match svcRtxSemaphoreNew (H := rtx5_masking) 3 2 (Some named) boot with
               | Some (_, k') => k'
               | None => boot
               end))
    as (s & Hs & Hn & _ & _ & _ & _ & Hsys).
  - vm_compute. reflexivity.
  - discriminate.
  - exists s. split; [exact Hs|]. split; [exact Hn|]. exact (proj1 (proj2 (Hsys eq_refl))).
Defined.

Lemma X8_witness :
  exists k2,
    svcRtxSemaphoreDelete (H := rtx5_masking) 4096
      (match svcRtxSemaphoreNew (H := rtx5_masking) 3 2 None boot with
       | Some (_, k') => k'
       | None => boot
       end) = Some (osOK, k2) /\
    mpi_semaphore k2 = mpi_semaphore boot.
Proof.
  destruct (X8_new_then_delete (H := rtx5_masking) 3 2 None boot 4096
              (match svcRtxSemaphoreNew (H := rtx5_masking) 3 2 None boot with
               | Some (_, k') => k'
               | None => boot
               end))
    as (k2 & E & _ & Hsys).
  - vm_compute. reflexivity.
  - discriminate.
  - lia.
  - exists k2. split; [exact E|].
    exact (proj1 (proj2 (Hsys eq_refl ltac:(discriminate)))).
Defined.

Section composition.
Context `{rtx_lib_h}.

(** X9: a thread that blocks in Acquire on an object without tokens and
    without waiters is the one the next thread-context Release wakes, with
    Ok; the token goes to it directly, so after the two calls every object,
    the counter included, is as before the Acquire. *)
Theorem X9_blocked_acquire_served_by_release h s k timeout :
  valid_active h s k -> tokens s = 0 -> thread_list s = [] ->
  timeout <> 0 -> suspendable k = true ->
  exists k1 k2,
    svcRtxSemaphoreAcquire h timeout k = Some (osErrorTimeout, k1) /\
    mem k1 !! h = Some (set_thread_list [thread_run_curr k] s) /\
    suspensions k1 =
      suspensions k ++
        [(ThreadWaitEnter (thread_run_curr k) osRtxThreadWaitingSemaphore timeout, mem k)] /\
    svcRtxSemaphoreRelease h k1 = Some (osOK, k2) /\
    mem k2 = mem k /\
    wakeups k2 = wakeups k ++ [(thread_run_curr k, osOK)].
Proof.
  intros Hv Ht Hl Hto Hsusp. pose proof Hv as (Hh & Hs & Hid & Hst).
  rewrite (svcRtxSemaphoreAcquire_run h s k timeout Hh Hs), (guarded_valid h s k _ Hv).
  apply Z.eqb_neq in Hto. rewrite Ht, Hto, Hsusp, Hl. cbn [Z.eqb negb thread_list_put]. cbv zeta.
  eexists _, _. split; [reflexivity|].
  split; [kred; apply lookup_insert_eq|].
  split; [rewrite suspensions_put, suspensions_log_request, suspensions_log by reflexivity;
          reflexivity|].
  erewrite svcRtxSemaphoreRelease_run; [|exact Hh|kred; apply lookup_insert_eq].
  rewrite guarded_valid
    by (split; [exact Hh|split; [kred; apply lookup_insert_eq|split; assumption]]).
  cbn [thread_list set_thread_list]. cbv zeta.
  split; [reflexivity|]. split.
  - kred. rewrite insert_insert_eq. apply insert_id. rewrite Hs. f_equal.
    clear -Hl. destruct s; cbn in Hl |- *; subst; reflexivity.
  - wakeups_simpl. reflexivity.
Qed.

(** X10: with a thread waiting and no tokens, a Release from interrupt
    context followed by the post-processing hook ends in the same objects as
    one thread-context Release, and wakes the same thread with Ok. *)
Theorem X10_deferred_release_serves_head_waiter h s k thread rest :
  valid_active h s k -> thread_list s = thread :: rest -> tokens s = 0 ->
  0 < max_tokens s < 65536 ->
  exists kd kt,
    perform_all [IsrRelease; PostProcessing] h k = Some (tt, kd) /\
    svcRtxSemaphoreRelease h k = Some (osOK, kt) /\
    mem kd = mem kt /\ mem kt !! h = Some (set_thread_list rest s) /\
    wakeups kd = wakeups k ++ [(thread, osOK)] /\
    wakeups kt = wakeups k ++ [(thread, osOK)].
Proof.
  intros Hv Hl Ht Hm. pose proof Hv as (Hh & Hs & Hid & Hst).
  cbn [perform_all perform]. kred.
  rewrite (isrRtxSemaphoreRelease_run h s k Hh Hs), (guarded_valid h s k _ Hv).
  rewrite (svcRtxSemaphoreRelease_run h s k Hh Hs), (guarded_valid h s k _ Hv), Hl, Ht.
  replace (0 <? max_tokens s) with true by (symmetry; apply Z.ltb_lt; lia).
  cbv beta iota zeta.
  erewrite osRtxSemaphorePostProcess_run by (kred; apply lookup_insert_eq).
  cbn [state set_tokens thread_list tokens]. rewrite Hst, active_not_inactive, Hl.
  change ((0 + 1) mod 65536 =? 0) with false. cbv iota zeta.
  eexists _, _. split; [reflexivity|]. split; [reflexivity|].
  split; [|split; [kred; apply lookup_insert_eq|split; wakeups_simpl; reflexivity]].
  kred. rewrite !insert_insert_eq. f_equal.
  clear -Ht. destruct s; cbn in Ht |- *; subst; reflexivity.
Qed.

(** X11: without waiters Release and a non-blocking Acquire undo each other.
    Below capacity, Release then Acquire(0) both return Ok and leave every
    object as it was; with a token available, so do Acquire(0) then
    Release. *)
Theorem X11_release_acquire_round_trip h s k :
  valid_active h s k -> thread_list s = [] ->
  0 <= tokens s <= max_tokens s -> max_tokens s < 65536 ->
  (tokens s < max_tokens s ->
   exists k1 k2,
     svcRtxSemaphoreRelease h k = Some (osOK, k1) /\
     svcRtxSemaphoreAcquire h 0 k1 = Some (osOK, k2) /\ mem k2 = mem k) /\
  (0 < tokens s ->
   exists k1 k2,
     svcRtxSemaphoreAcquire h 0 k = Some (osOK, k1) /\
     svcRtxSemaphoreRelease h k1 = Some (osOK, k2) /\ mem k2 = mem k).
Proof.
  intros Hv Hl Ht Hm. pose proof Hv as (Hh & Hs & Hid & Hst).
  assert (Hback : forall v w k0, mem k0 = mem k -> w = tokens s ->
            <[h := set_tokens w (set_tokens v s)]> (<[h := set_tokens v s]> (mem k0)) = mem k).
  { intros v w k0 -> ->. rewrite insert_insert_eq. apply insert_id. rewrite Hs. f_equal.
    now destruct s. }
  split.
  - intros Hlt.
    rewrite (svcRtxSemaphoreRelease_run h s k Hh Hs), (guarded_valid h s k _ Hv), Hl.
    apply Z.ltb_lt in Hlt as Hb. rewrite Hb. cbv zeta. rewrite (Z.mod_small (tokens s + 1)) by lia.
    eexists _, _. split; [reflexivity|].
    erewrite svcRtxSemaphoreAcquire_run; [|exact Hh|kred; apply lookup_insert_eq].
    rewrite guarded_valid
      by (split; [exact Hh|split; [kred; apply lookup_insert_eq|split; assumption]]).
    cbn [tokens set_tokens].
    replace (tokens s + 1 =? 0) with false by (symmetry; apply Z.eqb_neq; lia).
    cbn [negb]. cbv zeta. rewrite Z.mod_small by lia.
    split; [reflexivity|]. kred. apply (Hback _ _ k); [reflexivity|lia].
  - intros Hpos.
    rewrite (svcRtxSemaphoreAcquire_run h s k 0 Hh Hs), (guarded_valid h s k _ Hv).
    replace (tokens s =? 0) with false by (symmetry; apply Z.eqb_neq; lia).
    cbn [negb]. cbv zeta. rewrite (Z.mod_small (tokens s - 1)) by lia.
    eexists _, _. split; [reflexivity|].
    erewrite svcRtxSemaphoreRelease_run; [|exact Hh|kred; apply lookup_insert_eq].
    rewrite guarded_valid
      by (split; [exact Hh|split; [kred; apply lookup_insert_eq|split; assumption]]).
    cbn [tokens set_tokens thread_list max_tokens]. rewrite Hl.
    replace (tokens s - 1 <? max_tokens s) with true by (symmetry; apply Z.ltb_lt; lia).
    cbv zeta. rewrite Z.mod_small by lia.
    split; [reflexivity|]. kred. apply (Hback _ _ k); [reflexivity|lia].
Qed.
End composition.

Lemma X9_witness :
  exists k1 k2,
    svcRtxSemaphoreAcquire (H := rtx5_masking) 4096 5 (with_object no_tokens) =
      Some (osErrorTimeout, k1) /\
    svcRtxSemaphoreRelease (H := rtx5_masking) 4096 k1 = Some (osOK, k2) /\
    mem k2 = mem (with_object no_tokens) /\
    wakeups k2 = wakeups (with_object no_tokens) ++ [(idle_thread, osOK)].
Proof.
  destruct (X9_blocked_acquire_served_by_release (H := rtx5_masking) 4096 no_tokens
              (with_object no_tokens) 5)
    as (k1 & k2 & E1 & _ & _ & E2 & Hm & Hw).
  - repeat split; vm_compute; congruence.
  - reflexivity.
  - reflexivity.
  - discriminate.
  - reflexivity.
  - exists k1, k2. repeat split; assumption.
Defined.

Lemma X10_witness :
  exists kd kt,
    perform_all (H := rtx5_exclusive) [IsrRelease; PostProcessing] 4096
      (with_object three_waiters) = Some (tt, kd) /\
    svcRtxSemaphoreRelease (H := rtx5_exclusive) 4096 (with_object three_waiters) =
      Some (osOK, kt) /\
    mem kd = mem kt.
Proof.
  destruct (X10_deferred_release_serves_head_waiter (H := rtx5_exclusive) 4096 three_waiters
              (with_object three_waiters) high_first [high_second; low])
    as (kd & kt & Ed & Et & Hm & _).
  - repeat split; vm_compute; congruence.
  - reflexivity.
  - reflexivity.
  - cbn; lia.
  - exists kd, kt. repeat split; assumption.
Defined.

Lemma X11_witness :
  exists k1 k2,
    svcRtxSemaphoreRelease (H := rtx5_masking) 4096 (with_object two_tokens) =
      Some (osOK, k1) /\
    svcRtxSemaphoreAcquire (H := rtx5_masking) 4096 0 k1 = Some (osOK, k2) /\
    mem k2 = mem (with_object two_tokens).
Proof.
  refine (proj1 (X11_release_acquire_round_trip (H := rtx5_masking) 4096 two_tokens
                   (with_object two_tokens) _ _ _ _) _).
  - repeat split; vm_compute; congruence.
  - reflexivity.
  - cbn; lia.
  - cbn; lia.
  - cbn; lia.
Defined.

Section accounting.
Context `{rtx_lib_h}.

Ltac step_done Hh Hs Hid Hst :=
  eexists _, _; split; [reflexivity|];
  split; [split; [exact Hh|split;
            [first [exact Hs|kred; apply lookup_insert_eq]|
             split; [exact Hid|exact Hst]]]|];
  split; [repeat split|];
  split; [cbn [tokens max_tokens set_tokens set_thread_list]; lia|];
  split; [count_simpl; cbn [tokens max_tokens set_tokens set_thread_list]; lia|];
  split; reflexivity.

Lemma operation_step h s k o :
  valid_active h s k -> 0 <= tokens s <= max_tokens s -> max_tokens s < 65536 ->
  exists k' s', perform o h k = Some (tt, k') /\ step_keeps h s k s' k'.
Proof.
  intros Hv Ht Hm. pose proof Hv as (Hh & Hs & Hid & Hst). unfold step_keeps.
  destruct o as [timeout| |timeout| |]; cbn [perform]; kred.
  - rewrite (svcRtxSemaphoreAcquire_run h s k timeout Hh Hs), (guarded_valid h s k _ Hv).
    destruct (tokens s =? 0) eqn:Et; cbn [negb].
    + destruct (timeout =? 0); cbn [negb]; [step_done Hh Hs Hid Hst|]. cbv zeta.
      destruct (suspendable k); step_done Hh Hs Hid Hst.
    + apply Z.eqb_neq in Et. cbv zeta. rewrite Z.mod_small by lia. step_done Hh Hs Hid Hst.
  - rewrite (svcRtxSemaphoreRelease_run h s k Hh Hs), (guarded_valid h s k _ Hv).
    destruct (thread_list s) as [|thread rest].
    + destruct (tokens s <? max_tokens s) eqn:Et; [|step_done Hh Hs Hid Hst].
      apply Z.ltb_lt in Et. cbv zeta. rewrite Z.mod_small by lia. step_done Hh Hs Hid Hst.
    + cbv zeta. step_done Hh Hs Hid Hst.
  - destruct (Z.eq_dec timeout 0) as [->|Hto].
    + rewrite (isrRtxSemaphoreAcquire_run h s k Hh Hs), (guarded_valid h s k _ Hv).
      destruct (tokens s =? 0) eqn:Et; cbn [negb]; [step_done Hh Hs Hid Hst|].
      apply Z.eqb_neq in Et. cbv zeta. rewrite Z.mod_small by lia. step_done Hh Hs Hid Hst.
    + rewrite isrRtxSemaphoreAcquire_blocking by (eauto using mk_is_Some).
      step_done Hh Hs Hid Hst.
  - rewrite (isrRtxSemaphoreRelease_run h s k Hh Hs), (guarded_valid h s k _ Hv).
    destruct (tokens s <? max_tokens s) eqn:Et; [|step_done Hh Hs Hid Hst].
    apply Z.ltb_lt in Et. cbv zeta. rewrite Z.mod_small by lia. step_done Hh Hs Hid Hst.
  - rewrite (osRtxSemaphorePostProcess_run h s k Hs), Hst, active_not_inactive.
    destruct (thread_list s) as [|thread rest]; [step_done Hh Hs Hid Hst|].
    destruct (tokens s =? 0) eqn:Et; [step_done Hh Hs Hid Hst|].
    apply Z.eqb_neq in Et. cbv zeta. rewrite Z.mod_small by lia. step_done Hh Hs Hid Hst.
Qed.

Lemma operation_steps h os : forall s k,
  valid_active h s k -> 0 <= tokens s <= max_tokens s -> max_tokens s < 65536 ->
  exists k' s', perform_all os h k = Some (tt, k') /\ step_keeps h s k s' k'.
Proof.
  induction os as [|o os IH]; intros s k Hv Ht Hm.
  - exists k, s. split; [reflexivity|]. unfold step_keeps, same_identity. easy.
  - destruct (operation_step h s k o Hv Ht Hm)
      as (k1 & s1 & E1 & Hv1 & Hi1 & Ht1 & Hb1 & Hc1 & Hp1).
    destruct (IH s1 k1 Hv1 Ht1) as (k' & s' & E' & Hv' & Hi' & Ht' & Hb' & Hc' & Hp').
    { destruct Hi1 as (_ & _ & _ & _ & ->). exact Hm. }
    exists k', s'. split; [cbn [perform_all]; kred; now rewrite E1|].
    unfold step_keeps, same_identity in *.
    split; [exact Hv'|]. split; [intuition congruence|]. split; [exact Ht'|].
    split; [lia|]. split; congruence.
Qed.

(** X12: token accounting.  Over any sequence of operations of the core on
    one semaphore (blocking Acquire and the post-processing hook included),
    the counter moves by the recorded releases minus the recorded grants: no
    token appears or disappears without its event. *)
Theorem X12_token_accounting h s k os :
  valid_active h s k -> 0 <= tokens s <= max_tokens s -> max_tokens s < 65536 ->
  exists k' s',
    perform_all os h k = Some (tt, k') /\ mem k' !! h = Some s' /\
    tokens s' - tokens s = (releases h k' - releases h k) - (grants h k' - grants h k).
Proof.
  intros Hv Ht Hm.
  destruct (operation_steps h os s k Hv Ht Hm) as (k' & s' & E & Hv' & _ & _ & Hb & _).
  exists k', s'. split; [exact E|]. split; [apply Hv'|lia].
Qed.

(** X13: any sequence of operations of the core on a valid Active semaphore
    runs to its end, keeps [0 <= tokens <= max_tokens], and never changes
    the object's identifier, state, flags, name or capacity. *)
Theorem X13_identity_and_bounds_kept h s k os :
  valid_active h s k -> 0 <= tokens s <= max_tokens s -> max_tokens s < 65536 ->
  exists k' s',
    perform_all os h k = Some (tt, k') /\ mem k' !! h = Some s' /\
    same_identity s s' /\ 0 <= tokens s' <= max_tokens s.
Proof.
  intros Hv Ht Hm.
  destruct (operation_steps h os s k Hv Ht Hm) as (k' & s' & E & Hv' & Hi & Ht' & _).
  exists k', s'. split; [exact E|]. split; [apply Hv'|]. split; [exact Hi|].
  destruct Hi as (_ & _ & _ & _ & <-). exact Ht'.
Qed.

(** X15: a Release from interrupt context wakes nobody and leaves the wait
    list alone; it registers the semaphore for post-processing exactly when
    it returns Ok, once. *)
Theorem X15_isr_release_defers_wake h s k r k' :
  h <> NULL -> mem k !! h = Some s ->
  isrRtxSemaphoreRelease h k = Some (r, k') ->
  wakeups k' = wakeups k /\
  (exists s', mem k' !! h = Some s' /\ thread_list s' = thread_list s) /\
  registrations h k' = registrations h k + (if r is osOK then 1 else 0).
Proof.
  intros Hh Hs. rewrite (isrRtxSemaphoreRelease_run h s k Hh Hs). unfold guarded.
  repeat match goal with |- context [if ?b then _ else _] => destruct b end; cbv zeta;
    intros E; injection E as <- <-;
    (split; [wakeups_simpl; reflexivity|]);
    (split; [eexists; split; [first [exact Hs|kred; apply lookup_insert_eq]|reflexivity]|]);
    count_simpl; lia.
Qed.
End accounting.

Section frame.
Context `{rtx_lib_h}.

Ltac frame_done Hs :=
  eexists; split; [reflexivity|];
  split; [eexists; first [exact Hs|kred; apply lookup_insert_eq]|];
  split; [intros ? ?; kred; rewrite ?lookup_insert_ne by congruence; reflexivity|];
  repeat split.

Lemma frame_step h s k o :
  h <> NULL -> mem k !! h = Some s ->
  exists k', perform o h k = Some (tt, k') /\ (exists s', mem k' !! h = Some s') /\
    untouched h k k'.
Proof.
  intros Hh Hs. unfold untouched.
  destruct o as [timeout| |timeout| |]; cbn [perform]; kred.
  - rewrite (svcRtxSemaphoreAcquire_run h s k timeout Hh Hs). unfold guarded.
    repeat match goal with |- context [if ?b then _ else _] => destruct b end;
      cbv beta iota zeta; frame_done Hs.
  - rewrite (svcRtxSemaphoreRelease_run h s k Hh Hs). unfold guarded.
    destruct (thread_list s);
      repeat match goal with |- context [if ?b then _ else _] => destruct b end;
      cbv beta iota zeta; frame_done Hs.
  - destruct (Z.eq_dec timeout 0) as [->|Hto].
    + rewrite (isrRtxSemaphoreAcquire_run h s k Hh Hs). unfold guarded.
      repeat match goal with |- context [if ?b then _ else _] => destruct b end;
        cbv beta iota zeta; frame_done Hs.
    + rewrite isrRtxSemaphoreAcquire_blocking by (eauto using mk_is_Some). frame_done Hs.
  - rewrite (isrRtxSemaphoreRelease_run h s k Hh Hs). unfold guarded.
    repeat match goal with |- context [if ?b then _ else _] => destruct b end;
      cbv beta iota zeta; frame_done Hs.
  - rewrite (osRtxSemaphorePostProcess_run h s k Hs).
    destruct (thread_list s);
      repeat match goal with |- context [if ?b then _ else _] => destruct b end;
      cbv beta iota zeta; frame_done Hs.
Qed.

Lemma frame_steps h os : forall s k,
  h <> NULL -> mem k !! h = Some s ->
  exists k', perform_all os h k = Some (tt, k') /\ untouched h k k'.
Proof.
  induction os as [|o os IH]; intros s k Hh Hs.
  - exists k. split; [reflexivity|]. unfold untouched. easy.
  - destruct (frame_step h s k o Hh Hs) as (k1 & E1 & (s1 & Hs1) & Hf1 & Hi1 & Hp1 & Ht1).
    destruct (IH s1 k1 Hh Hs1) as (k' & E' & Hf' & Hi' & Hp' & Ht').
    exists k'. split; [cbn [perform_all]; kred; now rewrite E1|].
    split; [intros h' Hne; now rewrite Hf', Hf1|]. repeat split; congruence.
Qed.

(** X14: the operations of the core on one semaphore, in any number and
    order, and its deletion leave every other object, the interrupt mask,
    the handler number and the tick as they are; this holds for every mapped
    handle, a foreign or Inactive object included. *)
Theorem X14_other_objects_untouched h s k :
  h <> NULL -> mem k !! h = Some s ->
  (forall os, exists k', perform_all os h k = Some (tt, k') /\ untouched h k k') /\
  (exists r k', svcRtxSemaphoreDelete h k = Some (r, k') /\ untouched h k k').
Proof.
  intros Hh Hs. split; [intros os; now apply (frame_steps h os s k)|].
  rewrite (svcRtxSemaphoreDelete_run h s k Hh Hs). unfold guarded, untouched.
  destruct (negb (obj_id s =? osRtxIdSemaphore));
    [eexists _, _; split; [reflexivity|]; repeat split|].
  destruct (state s =? osRtxObjectInactive);
    [eexists _, _; split; [reflexivity|]; repeat split|].
  cbv zeta. eexists _, _. split; [reflexivity|]. unfold free_block.
  destruct (system_object s), (thread_list s), (mpi_semaphore k) eqn:Em;
    kopen k; cbn in Em; rewrite ?Em;
    (split; [intros ? ?; rewrite ?lookup_insert_ne by congruence; reflexivity|]);
    repeat split.
Qed.
End frame.

Lemma X14_witness :
  exists k',
    perform_all (H := rtx5_masking) [ThreadAcquire 9; IsrRelease; PostProcessing] 4096
      (put 8192 timer_object (with_object no_tokens)) = Some (tt, k') /\
    untouched 4096 (put 8192 timer_object (with_object no_tokens)) k'.
Proof.
  refine (proj1 (X14_other_objects_untouched (H := rtx5_masking) 4096 no_tokens
                   (put 8192 timer_object (with_object no_tokens)) _ _)
            [ThreadAcquire 9; IsrRelease; PostProcessing]).
  - discriminate.
  - reflexivity.
Defined.

Lemma X12_witness :
  exists k' s',
    perform_all (H := rtx5_masking)
      [ThreadAcquire 0; ThreadAcquire 4; IsrRelease; PostProcessing; ThreadRelease] 4096
      (with_object two_tokens) = Some (tt, k') /\
    mem k' !! 4096 = Some s' /\
    tokens s' - tokens two_tokens =
      (releases 4096 k' - releases 4096 (with_object two_tokens))
      - (grants 4096 k' - grants 4096 (with_object two_tokens)).
Proof.
  refine (X12_token_accounting (H := rtx5_masking) 4096 two_tokens (with_object two_tokens)
            [ThreadAcquire 0; ThreadAcquire 4; IsrRelease; PostProcessing; ThreadRelease]
            _ _ _).
  - repeat split; vm_compute; congruence.
  - cbn; lia.
  - cbn; lia.
Defined.

Lemma X13_witness :
  exists k' s',
    perform_all (H := rtx5_exclusive)
      [ThreadAcquire 6; ThreadAcquire 6; IsrRelease; IsrRelease; PostProcessing] 4096
      (with_object one_waiter) = Some (tt, k') /\
    mem k' !! 4096 = Some s' /\
    same_identity one_waiter s' /\ 0 <= tokens s' <= max_tokens one_waiter.
Proof.
  refine (X13_identity_and_bounds_kept (H := rtx5_exclusive) 4096 one_waiter
            (with_object one_waiter)
            [ThreadAcquire 6; ThreadAcquire 6; IsrRelease; IsrRelease; PostProcessing]
            _ _ _).
  - repeat split; vm_compute; congruence.
  - cbn; lia.
  - cbn; lia.
Defined.

Lemma X15_witness :
  wakeups (log (EvrRtxSemaphoreReleased 4096)
             (log (PostProcess 4096)
                (put 4096 (mk_semaphore 5 1 0 0 [idle_thread] 1 3) (with_object one_waiter)))) =
    wakeups (with_object one_waiter).
Proof.
  refine (proj1 (X15_isr_release_defers_wake (H := rtx5_masking) 4096 one_waiter
                   (with_object one_waiter) osOK _ _ _ _)).
  - discriminate.
  - reflexivity.
  - vm_compute. reflexivity.
Defined.

(** X16: the arithmetic of [svcRtxDelayUntil] on 32-bit ticks.  The call
    fails exactly when the target is one tick behind the current tick.  Any
    other target not equal to the current tick suspends the caller, where
    the scheduler allows it, for the distance to the target going forward
    around the 32-bit wrap: a target [d] ticks in the past waits
    [2^32 - d] ticks. *)
Theorem X16_delay_until_distance absolute_tick k :
  0 <= absolute_tick < 4294967296 -> 0 <= kernel_tick k < 4294967296 ->
  let distance :=
    if kernel_tick k <=? absolute_tick
    then absolute_tick - kernel_tick k
    else absolute_tick - kernel_tick k + 4294967296 in
  ((exists k', svcRtxDelayUntil absolute_tick k = Some (osErrorParameter, k'))
   <-> (absolute_tick + 1) mod 4294967296 = kernel_tick k) /\
  (suspendable k = true -> absolute_tick <> kernel_tick k ->
   (absolute_tick + 1) mod 4294967296 <> kernel_tick k ->
   svcRtxDelayUntil absolute_tick k =
     Some (osOK,
           log (ThreadWaitEnter (thread_run_curr k) osRtxThreadWaitingDelay distance) k)).
Proof.
  intros Ha Hk distance.
  assert (Hd : (absolute_tick - kernel_tick k) mod 4294967296 = distance).
  { subst distance. destruct (Z.leb_spec (kernel_tick k) (absolute_tick)).
    - apply Z.mod_small. lia.
    - rewrite <- (Z.mod_small (absolute_tick - kernel_tick k + 4294967296) 4294967296) by lia.
      rewrite <- Z.add_mod_idemp_r by lia. rewrite Z.mod_same by lia. now rewrite Z.add_0_r. }
  assert (Hlast : distance = 4294967295 <-> (absolute_tick + 1) mod 4294967296 = kernel_tick k).
  { subst distance. destruct (Z.leb_spec (kernel_tick k) (absolute_tick)).
    - destruct (Z.eq_dec absolute_tick 4294967295) as [->|Hne].
      + change ((4294967295 + 1) mod 4294967296) with 0. lia.
      + rewrite Z.mod_small by lia. lia.
    - rewrite Z.mod_small by lia. lia. }
  assert (E : svcRtxDelayUntil absolute_tick k =
    if distance =? 4294967295
    then Some (osErrorParameter,
               log (EvrRtxThreadError NULL (evr_status osErrorParameter)) k)
    else svcRtxDelay distance k).
  { unfold svcRtxDelayUntil, svcRtxDelay. kred. rewrite Hd.
    destruct (distance =? 4294967295); reflexivity. }
  rewrite E. split.
  - rewrite <- Hlast. destruct (distance =? 4294967295) eqn:Ed.
    + apply Z.eqb_eq in Ed. split; [easy|]. intros _. eauto.
    + apply Z.eqb_neq in Ed. split; [|easy]. intros [k' E'].
      destruct (svcRtxDelay_ok distance k) as [k'' E'']. congruence.
  - intros Hsusp Hne Hnl. rewrite <- Hlast in Hnl. apply Z.eqb_neq in Hnl. rewrite Hnl.
    rewrite svcRtxDelay_run, Hsusp.
    replace (distance =? 0) with false; [reflexivity|].
    symmetry. apply Z.eqb_neq. subst distance.
    destruct (Z.leb_spec (kernel_tick k) (absolute_tick)); lia.
Qed.
Lemma X16_witness :
  svcRtxDelayUntil 90 boot =
    Some (osOK, log (ThreadWaitEnter idle_thread osRtxThreadWaitingDelay 4294967286) boot).
Proof.
  refine (proj2 (X16_delay_until_distance 90 boot _ _) _ _ _).
  - lia.
  - cbn; lia.
  - reflexivity.
  - discriminate.
  - discriminate.
Defined.

Section names.
Context `{rtx_lib_h}.
Variable recorder : Z -> Z -> M unit.
Hypothesis recorder_passive : passive recorder.

Lemma recorded {A} a b (x : A) k :
  exists k', (recorder a b >> ret x) k = Some (x, k') /\ mem k' = mem k.
Proof.
  destruct (recorder_passive a b k) as (k' & E & Hm). exists k'. kred. now rewrite E.
Qed.

Lemma svcRtxSemaphoreGetName_run h s k :
  h <> NULL -> mem k !! h = Some s ->
  exists k',
    svcRtxSemaphoreGetName recorder h k =
      Some (if negb (obj_id s =? osRtxIdSemaphore) || (state s =? osRtxObjectInactive)
            then NULL else name s, k') /\
    mem k' = mem k.
Proof.
  intros Hh Hs. unfold svcRtxSemaphoreGetName.
  cbv beta zeta delta [bind]. rewrite (not_a_semaphore_run h s k Hh Hs).
  destruct (obj_id s =? osRtxIdSemaphore); cbn [negb orb]; [|apply recorded].
  unfold load. rewrite Hs.
  destruct (state s =? osRtxObjectInactive); apply recorded.
Qed.

(** X17: the name given at creation is the name read back.  On the handle
    [svcRtxSemaphoreNew] returned, GetName from thread context returns the
    name of the attributes, NULL when there were none, and changes no
    object, whatever the event recorder records. *)
Theorem X17_get_name_after_new max_count initial_count attr k h k0 :
  svcRtxSemaphoreNew max_count initial_count attr k = Some (h, k0) -> h <> NULL ->
  0 <= initial_count -> thread_context k0 ->
  exists k',
    osSemaphoreGetName recorder h k0 = Some (supplied_name attr, k') /\ mem k' = mem k0.
Proof.
  intros E Hh Hinit [Hi Hp].
  destruct (svcRtxSemaphoreNew_object _ _ _ _ _ _ E Hh) as (s & Hs & Hn & _).
  destruct (svcRtxSemaphoreNew_inv _ _ _ _ _ _ E Hh Hinit) as (s' & (_ & Hs' & Hid & Hst) & _).
  assert (s' = s) by congruence. subst s'.
  unfold osSemaphoreGetName, __svcSemaphoreGetName. cbv beta zeta delta [bind].
  rewrite in_irq_run, Hi, Hp. cbn [Z.eqb negb orb].
  destruct (svcRtxSemaphoreGetName_run h s k0 Hh Hs) as (k' & E' & Hm).
  rewrite Hid, Hst, Z.eqb_refl, active_not_inactive, Hn in E'. eauto.
Qed.

(** X18: GetName never returns the name of an object that is not an Active
    semaphore: NULL for the NULL handle, for a foreign object and for an
    Inactive one.  From interrupt context, or with interrupts masked, it
    returns NULL without reading the object, so even for a handle that
    points nowhere. *)
Theorem X18_get_name_refusals h k :
  (h = NULL \/
   (exists s, mem k !! h = Some s /\
      (obj_id s <> osRtxIdSemaphore \/ state s = osRtxObjectInactive)) ->
   exists k', svcRtxSemaphoreGetName recorder h k = Some (NULL, k') /\ mem k' = mem k) /\
  (irq_context k ->
   exists k', osSemaphoreGetName recorder h k = Some (NULL, k') /\ mem k' = mem k).
Proof.
  split.
  - intros [->|(s & Hs & Hbad)]; [apply recorded|].
    destruct (Z.eq_dec h NULL) as [->|Hh]; [apply recorded|].
    destruct (svcRtxSemaphoreGetName_run h s k Hh Hs) as (k' & E & Hm).
    exists k'. split; [|exact Hm]. rewrite E. do 2 f_equal.
    destruct Hbad as [Hid|Hst].
    + apply Z.eqb_neq in Hid. now rewrite Hid.
    + now rewrite Hst, Z.eqb_refl, orb_true_r.
  - intros Hc. unfold osSemaphoreGetName. cbv beta zeta delta [bind].
    rewrite (in_irq_context k Hc). apply recorded.
Qed.
End names.

Lemma no_recorder_passive : passive no_recorder.
Proof. intros a b k. exists k. split; reflexivity. Qed.

Lemma X17_witness :
  exists k',
    osSemaphoreGetName (H := rtx5_masking) no_recorder 4096
      (match svcRtxSemaphoreNew (H := rtx5_masking) 3 2 (Some named) boot with
       | Some (_, k0) => k0
       | None => boot
       end) = Some (777, k').
Proof.
  destruct (X17_get_name_after_new (H := rtx5_masking) no_recorder no_recorder_passive
              3 2 (Some named) boot 4096
              (match svcRtxSemaphoreNew (H := rtx5_masking) 3 2 (Some named) boot with
               | Some (_, k0) => k0
               | None => boot
               end))
    as (k' & E & _).
  - vm_compute. reflexivity.
  - discriminate.
  - lia.
  - split; reflexivity.
  - exists k'. exact E.
Defined.

Lemma X18_witness :
  exists k',
    osSemaphoreGetName (H := rtx5_masking) no_recorder 12345 boot_irq = Some (NULL, k') /\
    mem k' = mem boot_irq.
Proof.
  refine (proj2 (X18_get_name_refusals (H := rtx5_masking) no_recorder no_recorder_passive
                   12345 boot_irq) _).
  left. discriminate.
Defined.

Section interrupt_more.
Context `{rtx_lib_h}.

(** X19: from interrupt context, or with interrupts masked, [osSemaphoreNew]
    creates nothing, whatever the arguments: it returns NULL, reports the ISR
    error, writes no object, takes no block from the allocator and does not
    register the post-processing function. *)
Theorem X19_new_unavailable_in_interrupt max_count initial_count attr k :
  irq_context k ->
  exists k',
    osSemaphoreNew max_count initial_count attr k = Some (NULL, k') /\
    mem k' = mem k /\ mpi_semaphore k' = mpi_semaphore k /\ mem_common k' = mem_common k /\
    post_process_semaphore k' = post_process_semaphore k /\
    trace k' =
      trace k ++ [(EvrRtxSemaphoreNew max_count initial_count attr, mem k);
                  (EvrRtxSemaphoreError NULL (evr_status osErrorISR), mem k)].
Proof.
  intros Hc. unfold osSemaphoreNew. kred. rewrite (in_irq_context (log _ k) Hc).
  eexists. split; [reflexivity|]. kred. now rewrite <- app_assoc.
Qed.

(** X20: a token released from interrupt context is not reserved for the
    waiting thread.  With a thread waiting and no tokens, after an ISR
    Release an ISR Acquire with timeout 0 gets the token and returns Ok; the
    post-processing hook then finds no token and wakes nobody, and every
    object is as before the Release, the thread still waiting. *)
Theorem X20_deferred_token_can_be_taken h s k thread rest :
  valid_active h s k -> thread_list s = thread :: rest -> tokens s = 0 ->
  0 < max_tokens s < 65536 ->
  exists k1 k2,
    isrRtxSemaphoreRelease h k = Some (osOK, k1) /\
    isrRtxSemaphoreAcquire h 0 k1 = Some (osOK, k2) /\
    osRtxSemaphorePostProcess h k2 = Some (tt, k2) /\
    mem k2 = mem k /\ wakeups k2 = wakeups k.
Proof.
  intros Hv Hl Ht Hm. pose proof Hv as (Hh & Hs & Hid & Hst).
  rewrite (isrRtxSemaphoreRelease_run h s k Hh Hs), (guarded_valid h s k _ Hv), Ht.
  replace (0 <? max_tokens s) with true by (symmetry; apply Z.ltb_lt; lia).
  cbv zeta. change ((0 + 1) mod 65536) with 1.
  eexists _, _. split; [reflexivity|].
  erewrite isrRtxSemaphoreAcquire_run; [|exact Hh|kred; apply lookup_insert_eq].
  rewrite guarded_valid
    by (split; [exact Hh|split; [kred; apply lookup_insert_eq|split; assumption]]).
  cbn [tokens set_tokens Z.eqb negb]. cbv zeta. change ((1 - 1) mod 65536) with 0.
  split; [reflexivity|].
  assert (Hback : set_tokens 0 (set_tokens 1 s) = s).
  { clear -Ht. destruct s; cbn in Ht |- *; subst; reflexivity. }
  rewrite Hback. split.
  - erewrite osRtxSemaphorePostProcess_run by (kred; apply lookup_insert_eq).
    rewrite Hst, active_not_inactive, Hl, Ht. reflexivity.
  - split; [|wakeups_simpl; reflexivity].
    kred. rewrite insert_insert_eq. now apply insert_id.
Qed.
End interrupt_more.

Lemma X19_witness :
  exists k',
    osSemaphoreNew (H := rtx5_masking) 3 2 (Some caller_block) boot_irq = Some (NULL, k') /\
    mem k' = mem boot_irq.
Proof.
  destruct (X19_new_unavailable_in_interrupt (H := rtx5_masking) 3 2 (Some caller_block)
              boot_irq) as (k' & E & Hm & _).
  - left. discriminate.
  - exists k'. split; [exact E|exact Hm].
Defined.

Lemma X20_witness :
  exists k1 k2,
    isrRtxSemaphoreRelease (H := rtx5_exclusive) 4096 (with_object one_waiter) =
      Some (osOK, k1) /\
    isrRtxSemaphoreAcquire (H := rtx5_exclusive) 4096 0 k1 = Some (osOK, k2) /\
    osRtxSemaphorePostProcess (H := rtx5_exclusive) 4096 k2 = Some (tt, k2) /\
    mem k2 = mem (with_object one_waiter) /\ wakeups k2 = wakeups (with_object one_waiter).
Proof.
  refine (X20_deferred_token_can_be_taken (H := rtx5_exclusive) 4096 one_waiter
            (with_object one_waiter) idle_thread [] _ _ _ _).
  - repeat split; vm_compute; congruence.
  - reflexivity.
  - reflexivity.
  - cbn; lia.
Defined.
